(** * WiThrottleProtocol: a model of the protocol engine

    A shallow embedding of [WiThrottleProtocol.cpp]: the line framer of
    [check], the prefix dispatcher [processCommand], the locomotive action
    sub-parser, the two periodic timers and the outbound encoder.

    Conventions.
    - A [char *] argument is the C string it points to, that is the bytes up
      to (not including) the first NUL; [ch c i] reads [c[i]] and yields the
      terminating NUL at the end of the string, and [c +> n] is [c + n].
    - [int] and [long] are 32 bits wide (the engine calls [printf] on its
      console stream, which the ESP cores provide); all integers are in [Z]
      and every value computed here fits, except the result of [toInt],
      whose saturation is written out.
    - The stream, the console and the delegate are external objects: the
      model records the calls made on them, in order. *)

From Stdlib Require Import ZArith QArith Bool List String Ascii Lia.
From Stdlib Require Import DecimalString PrimFloat Uint63.
Import ListNotations.

Close Scope Q_scope.
Local Open Scope string_scope.
Local Open Scope Z_scope.

(** ** Characters and C strings *)

Definition NUL : ascii := Ascii.zero.
Definition NEWLINE : ascii := "010"%char.
Definition CR : ascii := "013"%char.
Definition PROPERTY_SEPARATOR : string := "<;>".

Definition MIN_SPEED : Z := 0.
Definition MAX_SPEED : Z := 126.

(** [c[i]]: the character at offset [i], the terminator at the end. *)
Definition ch (c : string) (i : nat) : ascii :=
  match String.get i c with
  | Some a => a
  | None => NUL
  end.

(** [c + n] for a pointer into a C string with at least [n] characters. *)
Fixpoint advance (n : nat) (c : string) : string :=
  match n, c with
  | O, _ => c
  | S n', String _ r => advance n' r
  | S _, EmptyString => EmptyString
  end.

Notation "c +> n" := (advance n c) (at level 40, left associativity).

Fixpoint take (n : nat) (s : string) : string :=
  match n, s with
  | S n', String a r => String a (take n' r)
  | _, _ => EmptyString
  end.

(** The C string stored at the start of a byte array. *)
Fixpoint c_str (buf : list ascii) : string :=
  match buf with
  | [] => EmptyString
  | a :: r => if Ascii.eqb a NUL then EmptyString else String a (c_str r)
  end.

Definition strlen (s : string) : Z := Z.of_nat (String.length s).

(** A string literal of the source that ends in [\n]: [eol "d"] is ["d\n"].
    (The format strings of the console's [printf] are recorded as the source
    spells them, escapes included; they are never interpreted.) *)
Definition eol (s : string) : string := s ++ String NEWLINE EmptyString.

(** ** The Arduino [String] operations the engine uses *)

Module WString.

Definition isspace (a : ascii) : bool :=
  let n := nat_of_ascii a in
  (Nat.eqb n 32 || (Nat.leb 9 n && Nat.leb n 13))%bool.

Definition isdigit (a : ascii) : bool :=
  let n := nat_of_ascii a in (Nat.leb 48 n && Nat.leb n 57)%bool.

Fixpoint skip_space (s : string) : string :=
  match s with
  | String a r => if isspace a then skip_space r else s
  | EmptyString => s
  end.

Fixpoint drop_trailing_space (s : string) : string :=
  match s with
  | EmptyString => EmptyString
  | String a r =>
      match drop_trailing_space r with
      | EmptyString => if isspace a then EmptyString else String a EmptyString
      | r' => String a r'
      end
  end.

(** [String::trim]: white space is removed at both ends. *)
Definition trim (s : string) : string := drop_trailing_space (skip_space s).

Definition LONG_MAX : Z := 2147483647.
Definition LONG_MIN : Z := -2147483648.

Definition saturate (z : Z) : Z := Z.max LONG_MIN (Z.min LONG_MAX z).

Fixpoint digits (acc : Z) (s : string) : Z :=
  match s with
  | String a r =>
      if isdigit a then digits (10 * acc + (Z.of_nat (nat_of_ascii a) - 48)) r
      else acc
  | EmptyString => acc
  end.

(** [String::toInt] is [atol]: leading white space, an optional sign, the
    longest run of decimal digits; [0] when there is none; saturating. *)
Definition toInt (s : string) : Z :=
  match skip_space s with
  | String a r =>
      if Ascii.eqb a "-" then saturate (- digits 0 r)
      else if Ascii.eqb a "+" then saturate (digits 0 r)
      else saturate (digits 0 (String a r))
  | EmptyString => 0
  end.

(** [String::indexOf]: offset of the first occurrence, [-1] when absent. *)
Fixpoint indexOf_at (i : Z) (needle s : string) : Z :=
  if String.prefix needle s then i
  else match s with
       | String _ r => indexOf_at (i + 1) needle r
       | EmptyString => -1
       end.

Definition indexOf (needle s : string) : Z := indexOf_at 0 needle s.

(** [String::substring(left, right)]: the bounds are swapped when out of
    order and the right one is cut at the length. *)
Definition substring (left right : nat) (s : string) : string :=
  let lo := Nat.min left right in
  let hi := Nat.max left right in
  take (hi - lo) (s +> lo).

(** [String::substring(left)] *)
Definition substring_from (left : nat) (s : string) : string := s +> left.

Definition startsWith (s p : string) : bool := String.prefix p s.

(** [String::remove(0, count)] *)
Definition remove0 (count : nat) (s : string) : string := s +> count.

(** [String::operator[]] and [charAt]: NUL when out of range. *)
Definition charAt (s : string) (i : nat) : ascii := ch s i.

Definition equals (s t : string) : bool := String.eqb s t.

(** [String(int)]: decimal rendering. *)
Definition ofInt (z : Z) : string := NilZero.string_of_int (Z.to_int z).

End WString.

(** ** Timers *)

(** A floating value handed to an integral parameter loses its fraction:
    the conversion of the [double] [0.5 * heartbeatPeriod] on the call of
    [hasPassed].  (The engine makes the call for positive periods only.) *)
Definition truncate (q : Q) : Z := Z.quot (Qnum q) (Z.pos (Qden q)).

(** Modelled from the spec: the [Chrono] timer class, whose header is not
    part of the sources.  A timer in [SECONDS] resolution keeps the reading
    of the seconds clock at its reference point; [hasPassed] holds when the
    seconds elapsed since then are at least the timeout; [restart] moves the
    reference point to the current reading.  The timeout is a whole number
    of seconds, as the library's [chrono_t] is an integral type. *)
Module Chrono.

Record t : Type := mk { startTime : Z }.

Definition elapsed (c : t) (now : Z) : Z := now - startTime c.

Definition hasPassed (c : t) (now : Z) (timeout : Z) : bool :=
  timeout <=? elapsed c now.

Definition restart (now : Z) : t := mk now.

End Chrono.

(** ** External objects: the calls they receive *)

Inductive Direction : Type := Reverse | Forward.

Inductive TrackPower : Type := PowerOff | PowerOn | PowerUnknown.

Inductive DelegateCall : Type :=
| heartbeatConfig (seconds : Z)
| receivedVersion (version : string)
| receivedWebPort (port : Z)
| receivedFunctionState (func : Z) (state : bool)
| receivedSpeed (speed : Z)
| receivedSpeedSteps (steps : Z)
| receivedDirection (dir : Direction)
| receivedTrackPower (state : TrackPower)
| addressAdded (address entry : string)
| addressRemoved (address entry : string)
| addressStealNeeded (address entry : string).

Inductive PrintfArg : Type :=
| ArgStr (s : string)
| ArgInt (z : Z)
| ArgChar (a : ascii)
| ArgMillis.

Inductive ConsoleCall : Type :=
| print (s : string)
| println (s : string)
| print_int (z : Z)
| println_int (z : Z)
| print_float (f : float)
| println_float (f : float)
| printf (fmt : string) (args : list PrintfArg).

(** ** The engine's state *)

(** [stream] and [delegate] are pointers: [None] is NULL, [Some l] an
    attached object that has received the calls [l] (for the stream, the
    lines written with [println]).  The console is taken to be attached. *)
Record WiThrottleProtocol : Type := mkWiThrottleProtocol {
  server : bool;
  stream : option (list string);
  console : list ConsoleCall;
  delegate : option (list DelegateCall);
  inputbuffer : list ascii;
  nextChar : Z;
  heartbeatTimer : Chrono.t;
  heartbeatPeriod : Z;
  fastTimeTimer : Chrono.t;
  currentFastTime : float;
  currentFastTimeRate : float;
  clockChanged : bool;
  heartbeatChanged : bool;
  currentAddress : string;
  locomotiveSelected : bool;
  currentSpeed : Z;
  speedSteps : Z;
  currentDirection : Direction
}.

Definition set_stream (v : option (list string)) (w : WiThrottleProtocol) : WiThrottleProtocol :=
  mkWiThrottleProtocol (server w) v (console w) (delegate w) (inputbuffer w) (nextChar w) (heartbeatTimer w) (heartbeatPeriod w) (fastTimeTimer w) (currentFastTime w) (currentFastTimeRate w) (clockChanged w) (heartbeatChanged w) (currentAddress w) (locomotiveSelected w) (currentSpeed w) (speedSteps w) (currentDirection w).

Definition set_console (v : list ConsoleCall) (w : WiThrottleProtocol) : WiThrottleProtocol :=
  mkWiThrottleProtocol (server w) (stream w) v (delegate w) (inputbuffer w) (nextChar w) (heartbeatTimer w) (heartbeatPeriod w) (fastTimeTimer w) (currentFastTime w) (currentFastTimeRate w) (clockChanged w) (heartbeatChanged w) (currentAddress w) (locomotiveSelected w) (currentSpeed w) (speedSteps w) (currentDirection w).

Definition set_delegate (v : option (list DelegateCall)) (w : WiThrottleProtocol) : WiThrottleProtocol :=
  mkWiThrottleProtocol (server w) (stream w) (console w) v (inputbuffer w) (nextChar w) (heartbeatTimer w) (heartbeatPeriod w) (fastTimeTimer w) (currentFastTime w) (currentFastTimeRate w) (clockChanged w) (heartbeatChanged w) (currentAddress w) (locomotiveSelected w) (currentSpeed w) (speedSteps w) (currentDirection w).

Definition set_inputbuffer (v : list ascii) (w : WiThrottleProtocol) : WiThrottleProtocol :=
  mkWiThrottleProtocol (server w) (stream w) (console w) (delegate w) v (nextChar w) (heartbeatTimer w) (heartbeatPeriod w) (fastTimeTimer w) (currentFastTime w) (currentFastTimeRate w) (clockChanged w) (heartbeatChanged w) (currentAddress w) (locomotiveSelected w) (currentSpeed w) (speedSteps w) (currentDirection w).

Definition set_nextChar (v : Z) (w : WiThrottleProtocol) : WiThrottleProtocol :=
  mkWiThrottleProtocol (server w) (stream w) (console w) (delegate w) (inputbuffer w) v (heartbeatTimer w) (heartbeatPeriod w) (fastTimeTimer w) (currentFastTime w) (currentFastTimeRate w) (clockChanged w) (heartbeatChanged w) (currentAddress w) (locomotiveSelected w) (currentSpeed w) (speedSteps w) (currentDirection w).

Definition set_heartbeatTimer (v : Chrono.t) (w : WiThrottleProtocol) : WiThrottleProtocol :=
  mkWiThrottleProtocol (server w) (stream w) (console w) (delegate w) (inputbuffer w) (nextChar w) v (heartbeatPeriod w) (fastTimeTimer w) (currentFastTime w) (currentFastTimeRate w) (clockChanged w) (heartbeatChanged w) (currentAddress w) (locomotiveSelected w) (currentSpeed w) (speedSteps w) (currentDirection w).

Definition set_heartbeatPeriod (v : Z) (w : WiThrottleProtocol) : WiThrottleProtocol :=
  mkWiThrottleProtocol (server w) (stream w) (console w) (delegate w) (inputbuffer w) (nextChar w) (heartbeatTimer w) v (fastTimeTimer w) (currentFastTime w) (currentFastTimeRate w) (clockChanged w) (heartbeatChanged w) (currentAddress w) (locomotiveSelected w) (currentSpeed w) (speedSteps w) (currentDirection w).

Definition set_fastTimeTimer (v : Chrono.t) (w : WiThrottleProtocol) : WiThrottleProtocol :=
  mkWiThrottleProtocol (server w) (stream w) (console w) (delegate w) (inputbuffer w) (nextChar w) (heartbeatTimer w) (heartbeatPeriod w) v (currentFastTime w) (currentFastTimeRate w) (clockChanged w) (heartbeatChanged w) (currentAddress w) (locomotiveSelected w) (currentSpeed w) (speedSteps w) (currentDirection w).

Definition set_currentFastTime (v : float) (w : WiThrottleProtocol) : WiThrottleProtocol :=
  mkWiThrottleProtocol (server w) (stream w) (console w) (delegate w) (inputbuffer w) (nextChar w) (heartbeatTimer w) (heartbeatPeriod w) (fastTimeTimer w) v (currentFastTimeRate w) (clockChanged w) (heartbeatChanged w) (currentAddress w) (locomotiveSelected w) (currentSpeed w) (speedSteps w) (currentDirection w).

Definition set_currentFastTimeRate (v : float) (w : WiThrottleProtocol) : WiThrottleProtocol :=
  mkWiThrottleProtocol (server w) (stream w) (console w) (delegate w) (inputbuffer w) (nextChar w) (heartbeatTimer w) (heartbeatPeriod w) (fastTimeTimer w) (currentFastTime w) v (clockChanged w) (heartbeatChanged w) (currentAddress w) (locomotiveSelected w) (currentSpeed w) (speedSteps w) (currentDirection w).

Definition set_clockChanged (v : bool) (w : WiThrottleProtocol) : WiThrottleProtocol :=
  mkWiThrottleProtocol (server w) (stream w) (console w) (delegate w) (inputbuffer w) (nextChar w) (heartbeatTimer w) (heartbeatPeriod w) (fastTimeTimer w) (currentFastTime w) (currentFastTimeRate w) v (heartbeatChanged w) (currentAddress w) (locomotiveSelected w) (currentSpeed w) (speedSteps w) (currentDirection w).

Definition set_heartbeatChanged (v : bool) (w : WiThrottleProtocol) : WiThrottleProtocol :=
  mkWiThrottleProtocol (server w) (stream w) (console w) (delegate w) (inputbuffer w) (nextChar w) (heartbeatTimer w) (heartbeatPeriod w) (fastTimeTimer w) (currentFastTime w) (currentFastTimeRate w) (clockChanged w) v (currentAddress w) (locomotiveSelected w) (currentSpeed w) (speedSteps w) (currentDirection w).

Definition set_currentAddress (v : string) (w : WiThrottleProtocol) : WiThrottleProtocol :=
  mkWiThrottleProtocol (server w) (stream w) (console w) (delegate w) (inputbuffer w) (nextChar w) (heartbeatTimer w) (heartbeatPeriod w) (fastTimeTimer w) (currentFastTime w) (currentFastTimeRate w) (clockChanged w) (heartbeatChanged w) v (locomotiveSelected w) (currentSpeed w) (speedSteps w) (currentDirection w).

Definition set_locomotiveSelected (v : bool) (w : WiThrottleProtocol) : WiThrottleProtocol :=
  mkWiThrottleProtocol (server w) (stream w) (console w) (delegate w) (inputbuffer w) (nextChar w) (heartbeatTimer w) (heartbeatPeriod w) (fastTimeTimer w) (currentFastTime w) (currentFastTimeRate w) (clockChanged w) (heartbeatChanged w) (currentAddress w) v (currentSpeed w) (speedSteps w) (currentDirection w).

Definition set_currentSpeed (v : Z) (w : WiThrottleProtocol) : WiThrottleProtocol :=
  mkWiThrottleProtocol (server w) (stream w) (console w) (delegate w) (inputbuffer w) (nextChar w) (heartbeatTimer w) (heartbeatPeriod w) (fastTimeTimer w) (currentFastTime w) (currentFastTimeRate w) (clockChanged w) (heartbeatChanged w) (currentAddress w) (locomotiveSelected w) v (speedSteps w) (currentDirection w).

Definition set_currentDirection (v : Direction) (w : WiThrottleProtocol) : WiThrottleProtocol :=
  mkWiThrottleProtocol (server w) (stream w) (console w) (delegate w) (inputbuffer w) (nextChar w) (heartbeatTimer w) (heartbeatPeriod w) (fastTimeTimer w) (currentFastTime w) (currentFastTimeRate w) (clockChanged w) (heartbeatChanged w) (currentAddress w) (locomotiveSelected w) (currentSpeed w) (speedSteps w) v.

Definition log (m : ConsoleCall) (w : WiThrottleProtocol) : WiThrottleProtocol :=
  set_console (console w ++ [m])%list w.

Definition has_delegate (w : WiThrottleProtocol) : bool :=
  match delegate w with Some _ => true | None => false end.

(** A call through the [delegate] pointer; every call site tests the
    pointer first. *)
Definition call (e : DelegateCall) (w : WiThrottleProtocol) : WiThrottleProtocol :=
  match delegate w with
  | Some l => set_delegate (Some (l ++ [e])%list) w
  | None => w
  end.

(** Conversion of an [int] to the floating type of the fast clock. *)
Definition of_int (z : Z) : float :=
  if z <? 0 then PrimFloat.opp (PrimFloat.of_uint63 (Uint63.of_Z (- z)))
  else PrimFloat.of_uint63 (Uint63.of_Z z).

Definition resetChangeFlags (w : WiThrottleProtocol) : WiThrottleProtocol :=
  set_heartbeatChanged false (set_clockChanged false w).

Definition init (w : WiThrottleProtocol) : WiThrottleProtocol :=
  let w := set_stream None w in
  let w := set_inputbuffer (repeat NUL (List.length (inputbuffer w))) w in
  let w := set_nextChar 0 w in
  let w := set_heartbeatPeriod 0 w in
  let w := set_currentFastTime (of_int 0) w in
  let w := set_currentFastTimeRate (of_int 0) w in
  let w := set_locomotiveSelected false w in
  resetChangeFlags w.

(** The constructor, for an input buffer of [size] bytes, run when the
    seconds clock reads [now]. *)
Definition create (srv : bool) (size : nat) (now : Z) : WiThrottleProtocol :=
  init (mkWiThrottleProtocol srv None [] None (repeat NUL size) 0
          (Chrono.restart now) 0 (Chrono.restart now) (of_int 0) (of_int 0)
          false false "" false 0 0 Forward).

Definition connect (w : WiThrottleProtocol) : WiThrottleProtocol :=
  set_stream (Some []) (init w).

Definition disconnect (w : WiThrottleProtocol) : WiThrottleProtocol :=
  set_stream None w.

Definition attach (w : WiThrottleProtocol) : WiThrottleProtocol :=
  set_delegate (Some []) w.

Definition sendCommand (cmd : string) (w : WiThrottleProtocol) : WiThrottleProtocol :=
  match stream w with
  | Some out =>
      let out := (out ++ [cmd])%list in
      let out := if server w then (out ++ [""])%list else out in
      let w := set_stream (Some out) w in
      log (println cmd) (log (print "==> ") w)
  | None => w
  end.

(** *** Timers *)

Definition checkFastTime (now : Z) (w : WiThrottleProtocol) : bool * WiThrottleProtocol :=
  let changed := true in
  if Chrono.hasPassed (fastTimeTimer w) now 1 then
    let w := set_fastTimeTimer (Chrono.restart now) w in
    if PrimFloat.eqb (currentFastTimeRate w) (of_int 0) then
      (changed, set_clockChanged false w)
    else
      let w := set_currentFastTime
                 (PrimFloat.add (currentFastTime w) (currentFastTimeRate w)) w in
      (changed, set_clockChanged true w)
  else (changed, w).

Definition checkHeartbeat (now : Z) (w : WiThrottleProtocol) : bool * WiThrottleProtocol :=
  if (heartbeatPeriod w >? 0)
     && Chrono.hasPassed (heartbeatTimer w) now
          (truncate (Qmult (1 # 2) (inject_Z (heartbeatPeriod w))))
  then
    let w := set_heartbeatTimer (Chrono.restart now) w in
    (true, sendCommand "*" w)
  else (false, w).

(** *** Locomotive actions *)

Definition processFunctionState (functionData : string) (w : WiThrottleProtocol)
  : WiThrottleProtocol :=
  if has_delegate w && (strlen functionData >=? 3) then
    let state := Ascii.eqb (WString.charAt functionData 1) "1" in
    let funcNumStr := WString.substring_from 2 functionData in
    let funcNum := (WString.toInt funcNumStr) mod 256 in
    if (funcNum =? 0) && negb (WString.equals funcNumStr "0") then w
    else call (receivedFunctionState funcNum state) w
  else w.

Definition processSpeed (speedData : string) (w : WiThrottleProtocol)
  : WiThrottleProtocol :=
  if has_delegate w && (strlen speedData >=? 2) then
    let speedStr := WString.substring_from 1 speedData in
    let speed := WString.toInt speedStr in
    let speed := if (speed <? MIN_SPEED) || (speed >? MAX_SPEED) then 0 else speed in
    call (receivedSpeed speed) w
  else w.

Definition processSpeedSteps (speedStepData : string) (w : WiThrottleProtocol)
  : WiThrottleProtocol :=
  if has_delegate w && (strlen speedStepData >=? 2) then
    let speedStepStr := WString.substring_from 1 speedStepData in
    let steps := WString.toInt speedStepStr in
    if negb (steps =? 1) && negb (steps =? 2) && negb (steps =? 4)
       && negb (steps =? 8) && negb (steps =? 16)
    then w
    else call (receivedSpeedSteps steps) w
  else w.

Definition processDirection (directionStr : string) (w : WiThrottleProtocol)
  : WiThrottleProtocol :=
  let w := log (print "DIRECTION STRING: ") w in
  let w := log (println directionStr) w in
  let w := log (print "LENGTH: ") w in
  let w := log (println_int (strlen directionStr)) w in
  if has_delegate w && (strlen directionStr =? 2) then
    let w := if Ascii.eqb (WString.charAt directionStr 1) "0"
             then set_currentDirection Reverse w
             else set_currentDirection Forward w in
    call (receivedDirection (currentDirection w)) w
  else w.

(** The [switch] of [processLocomotiveAction] on the first character of
    what is left of the remainder. *)
Definition locomotiveSwitch (remainder : string) (w : WiThrottleProtocol)
  : WiThrottleProtocol :=
  let action := WString.charAt remainder 0 in
  if Ascii.eqb action "F" then processFunctionState remainder w
  else if Ascii.eqb action "V" then processSpeed remainder w
  else if Ascii.eqb action "s" then processSpeedSteps remainder w
  else if Ascii.eqb action "R" then processDirection remainder w
  else log (printf "unrecognized action '%c'\n" [ArgChar action]) w.

Definition processLocomotiveAction (c : string) (len : Z) (w : WiThrottleProtocol)
  : bool * WiThrottleProtocol :=
  let remainder := c in
  if WString.equals (currentAddress w) "" then (true, w)
  else
    let addrCheck := currentAddress w ++ PROPERTY_SEPARATOR in
    let allCheck := "*" ++ PROPERTY_SEPARATOR in
    let remainder :=
      if WString.startsWith remainder addrCheck
      then WString.remove0 (String.length addrCheck) remainder
      else if WString.startsWith remainder allCheck
      then WString.remove0 (String.length allCheck) remainder
      else remainder in
    if strlen remainder >? 0 then (true, locomotiveSwitch remainder w)
    else (false, log (printf "insufficient action to process\n" []) w).

(** *** The other inbound parsers *)

Definition processHeartbeat (c : string) (len : Z) (w : WiThrottleProtocol)
  : bool * WiThrottleProtocol :=
  let w := set_heartbeatPeriod (WString.toInt c) w in
  if heartbeatPeriod w >? 0 then
    let w := set_heartbeatChanged true w in
    let w := if has_delegate w then call (heartbeatConfig (heartbeatPeriod w)) w
             else w in
    (true, w)
  else (false, w).

Definition processProtocolVersion (c : string) (len : Z) (w : WiThrottleProtocol)
  : WiThrottleProtocol :=
  if has_delegate w && (len >? 0) then call (receivedVersion c) w else w.

Definition processWebPort (c : string) (len : Z) (w : WiThrottleProtocol)
  : WiThrottleProtocol :=
  if has_delegate w && (len >? 0) then call (receivedWebPort (WString.toInt c)) w
  else w.

Definition processTrackPower (c : string) (len : Z) (w : WiThrottleProtocol)
  : WiThrottleProtocol :=
  if has_delegate w then
    if len >? 0 then
      let state :=
        if Ascii.eqb (ch c 0) "0" then PowerOff
        else if Ascii.eqb (ch c 0) "1" then PowerOn
        else PowerUnknown in
      call (receivedTrackPower state) w
    else w
  else w.

(** The dump of a rejected removal entry, one line per character. *)
Fixpoint dump_entry (i : Z) (entry : string) (w : WiThrottleProtocol)
  : WiThrottleProtocol :=
  match entry with
  | EmptyString => w
  | String a r =>
      dump_entry (i + 1) r
        (log (printf "  char at %d is %d\n"
                [ArgInt i; ArgInt (Z.of_nat (nat_of_ascii a))]) w)
  end.

Definition processAddRemove (c : string) (len : Z) (w : WiThrottleProtocol)
  : WiThrottleProtocol :=
  if negb (has_delegate w) then w
  else
    let s := c in
    let add := Ascii.eqb (ch c 0) "+" in
    let remove := Ascii.eqb (ch c 0) "-" in
    let p := WString.indexOf PROPERTY_SEPARATOR s in
    if p >? 0 then
      let address := WString.substring 1 (Z.to_nat p) s in
      let entry := WString.substring_from (Z.to_nat (p + 3)) s in
      let address := WString.trim address in
      let entry := WString.trim entry in
      let w := if add then call (addressAdded address entry) w else w in
      if remove then
        if WString.equals entry (eol "d") || WString.equals entry (eol "r") then
          call (addressRemoved address entry) w
        else
          let w := log (printf "malformed address removal: command is %s\n"
                          [ArgStr entry]) w in
          let w := log (printf "entry length is %d\n" [ArgInt (strlen entry)]) w in
          dump_entry 0 entry w
      else w
    else w.

Definition processStealNeeded (c : string) (len : Z) (w : WiThrottleProtocol)
  : WiThrottleProtocol :=
  if negb (has_delegate w) then w
  else
    let w := log (printf "processing steal needed command %s\n" [ArgStr c]) w in
    let s := c in
    let p := WString.indexOf PROPERTY_SEPARATOR s in
    if p >? 0 then
      let address := WString.substring 0 (Z.to_nat p) s in
      let entry := WString.substring_from (Z.to_nat (p + 3)) s in
      call (addressStealNeeded address entry) w
    else w.

(** *** The outbound encoder *)

Definition addLocomotive (address : string) (w : WiThrottleProtocol)
  : bool * WiThrottleProtocol :=
  if Ascii.eqb (WString.charAt address 0) "S"
     || Ascii.eqb (WString.charAt address 0) "L" then
    let rosterName := address in
    let cmd := "MT+" ++ address ++ PROPERTY_SEPARATOR ++ rosterName in
    let w := sendCommand cmd w in
    let w := set_currentAddress address w in
    (true, set_locomotiveSelected true w)
  else (false, w).

Definition releaseLocomotive (address : string) (w : WiThrottleProtocol)
  : bool * WiThrottleProtocol :=
  let cmd := "MT-" ++ address ++ PROPERTY_SEPARATOR ++ "r" in
  let w := sendCommand cmd w in
  (true, set_locomotiveSelected false w).

Definition stealLocomotive (address : string) (w : WiThrottleProtocol)
  : bool * WiThrottleProtocol :=
  let (released, w) := releaseLocomotive address w in
  if released then addLocomotive address w else (false, w).

Definition setSpeed (speed : Z) (w : WiThrottleProtocol)
  : bool * WiThrottleProtocol :=
  if (speed <? 0) || (speed >? 126) then (false, w)
  else if negb (locomotiveSelected w) then (false, w)
  else if negb (speed =? currentSpeed w) then
    let cmd := "MTA*" ++ PROPERTY_SEPARATOR ++ "V" ++ WString.ofInt speed in
    let w := sendCommand cmd w in
    (true, set_currentSpeed speed w)
  else (true, w).

Definition getSpeed (w : WiThrottleProtocol) : Z := currentSpeed w.

(** *** The rest of the outbound encoder *)

Definition setDeviceName (deviceName : string) (w : WiThrottleProtocol)
  : WiThrottleProtocol :=
  sendCommand ("N" ++ deviceName) w.

Definition setDeviceID (deviceId : string) (w : WiThrottleProtocol)
  : WiThrottleProtocol :=
  sendCommand ("H" ++ deviceId) w.

Definition requireHeartbeat (needed : bool) (w : WiThrottleProtocol)
  : WiThrottleProtocol :=
  if needed then sendCommand "*+" w else sendCommand "*-" w.


Definition getDirection (w : WiThrottleProtocol) : Direction := currentDirection w.

Definition emergencyStop (w : WiThrottleProtocol) : WiThrottleProtocol :=
  sendCommand ("MTA*" ++ PROPERTY_SEPARATOR ++ "X") w.

Definition setFunction (funcNum : Z) (pressed : bool) (w : WiThrottleProtocol)
  : WiThrottleProtocol :=
  if negb (locomotiveSelected w) then w
  else if (funcNum <? 0) || (funcNum >? 28) then w
  else
    let cmd := "MTA" ++ currentAddress w ++ PROPERTY_SEPARATOR ++ "F" in
    let cmd := if pressed then cmd ++ "1" else cmd ++ "0" in
    let cmd := cmd ++ WString.ofInt funcNum in
    sendCommand cmd w.

Definition fastTimeRate (w : WiThrottleProtocol) : float := currentFastTimeRate w.

(** The bytes the stream's [println] puts on the wire for one line: the
    text, a carriage return and a line feed. *)
Definition println_bytes (line : string) : list ascii :=
  (list_ascii_of_string line ++ [CR; NEWLINE])%list.

Section Engine.

(** What the caller of [processCommand] observes when control leaves the
    function without a [return] statement (its last two branches); the
    language leaves it unspecified. *)
Variable fallthrough : bool.

(** [String::toFloat], the C library's decimal-to-binary conversion. *)
Variable toFloat : string -> float.

Definition setCurrentFastTime (s : string) (w : WiThrottleProtocol)
  : WiThrottleProtocol :=
  let t := WString.toInt s in
  let w :=
    if PrimFloat.eqb (currentFastTime w) (of_int 0) then
      log (println_int t) (log (print "set fast time to ") w)
    else
      let w := log (print "updating fast time (should be ") w in
      let w := log (print_int t) w in
      let w := log (print " is ") w in
      let w := log (print_float (currentFastTime w)) w in
      let w := log (println ")") w in
      log (printf "currentTime is %d\n" [ArgMillis]) w in
  set_currentFastTime (of_int t) w.

Definition processFastTime (c : string) (len : Z) (w : WiThrottleProtocol)
  : bool * WiThrottleProtocol :=
  let s := c in
  let p := WString.indexOf PROPERTY_SEPARATOR s in
  if p >? 0 then
    let timeval := WString.substring 0 (Z.to_nat p) s in
    let rate := WString.substring_from (Z.to_nat (p + 3)) s in
    let w := setCurrentFastTime timeval w in
    let w := set_currentFastTimeRate (toFloat rate) w in
    let w := log (print "set clock rate to ") w in
    let w := log (println_float (currentFastTimeRate w)) w in
    (true, set_clockChanged true w)
  else
    (true, setCurrentFastTime s w).

(** *** The dispatcher *)

Definition ignoreThisGarbage : string := "AT+CIPSENDBUF=".

(** The loop that removes the leading occurrences of the marker; each
    round advances [c] by the marker's length, so [fuel] rounds suffice
    when [fuel] exceeds the length of [c]. *)
Fixpoint strip_garbage (fuel : nat) (c : string) (changed : bool)
  (w : WiThrottleProtocol) : string * bool * WiThrottleProtocol :=
  match fuel with
  | O => (c, changed, w)
  | S fuel' =>
      if String.prefix ignoreThisGarbage c then
        let w := log (printf "removed one instance of %s\n"
                        [ArgStr ignoreThisGarbage]) w in
        strip_garbage fuel' (c +> String.length ignoreThisGarbage) true w
      else (c, changed, w)
  end.

(** The chain of prefix rules, on the pointer left by the loop and the
    length the caller passed. *)
Definition dispatch (c : string) (len : Z) (w : WiThrottleProtocol)
  : bool * WiThrottleProtocol :=
  if (len >? 3) && Ascii.eqb (ch c 0) "P" && Ascii.eqb (ch c 1) "F"
     && Ascii.eqb (ch c 2) "T" then
    processFastTime (c +> 3) (len - 3) w
  else if (len >? 3) && Ascii.eqb (ch c 0) "P" && Ascii.eqb (ch c 1) "P"
          && Ascii.eqb (ch c 2) "A" then
    (true, processTrackPower (c +> 3) (len - 3) w)
  else if (len >? 1) && Ascii.eqb (ch c 0) "*" then
    processHeartbeat (c +> 1) (len - 1) w
  else if (len >? 2) && Ascii.eqb (ch c 0) "V" && Ascii.eqb (ch c 1) "N" then
    (true, processProtocolVersion (c +> 2) (len - 2) w)
  else if (len >? 2) && Ascii.eqb (ch c 0) "P" && Ascii.eqb (ch c 1) "W" then
    (true, processWebPort (c +> 2) (len - 2) w)
  else if (len >? 6) && Ascii.eqb (ch c 0) "M" && Ascii.eqb (ch c 1) "T"
          && Ascii.eqb (ch c 2) "S" then
    (true, processStealNeeded (c +> 3) (len - 3) w)
  else if (len >? 6) && Ascii.eqb (ch c 0) "M" && Ascii.eqb (ch c 1) "T"
          && (Ascii.eqb (ch c 2) "+" || Ascii.eqb (ch c 2) "-") then
    (true, processAddRemove (c +> 2) (len - 2) w)
  else if (len >? 8) && Ascii.eqb (ch c 0) "M" && Ascii.eqb (ch c 1) "T"
          && Ascii.eqb (ch c 2) "A" then
    processLocomotiveAction (c +> 3) (len - 3) w
  else if (len >? 3) && Ascii.eqb (ch c 0) "A" && Ascii.eqb (ch c 1) "T"
          && Ascii.eqb (ch c 2) "+" then
    (fallthrough, w)
  else
    (fallthrough, log (printf "unknown command '%s'\n" [ArgStr c]) w).

Definition processCommand (c : string) (len : Z) (w : WiThrottleProtocol)
  : bool * WiThrottleProtocol :=
  let w := log (print "<== ") w in
  let w := log (println c) w in
  let '(c, changed, w) := strip_garbage (S (String.length c)) c false w in
  let w := if changed
           then log (printf "input string is now: '%s'\n" [ArgStr c]) w
           else w in
  dispatch c len w.

(** *** The line framer *)

Fixpoint store (i : nat) (b : ascii) (buf : list ascii) : list ascii :=
  match buf, i with
  | [], _ => []
  | _ :: r, O => b :: r
  | a :: r, S i' => a :: store i' b r
  end.

(** [inputbuffer[i] = b]; [None] when [i] is outside the array. *)
Definition poke (i : Z) (b : ascii) (w : WiThrottleProtocol)
  : option WiThrottleProtocol :=
  if (0 <=? i) && (i <? Z.of_nat (List.length (inputbuffer w))) then
    Some (set_inputbuffer (store (Z.to_nat i) b (inputbuffer w)) w)
  else None.

(** The body of the [while] loop of [check], for the byte [b] just read. *)
Definition frame_byte (b : ascii) (changed : bool) (w : WiThrottleProtocol)
  : option (bool * WiThrottleProtocol) :=
  if Ascii.eqb b NEWLINE || Ascii.eqb b CR then
    if negb (nextChar w =? 0) then
      match poke (nextChar w) NUL w with
      | Some w =>
          let (r, w) := processCommand (c_str (inputbuffer w)) (nextChar w) w in
          Some (changed || r, set_nextChar 0 w)
      | None => None
      end
    else Some (changed, set_nextChar 0 w)
  else
    match poke (nextChar w) b w with
    | Some w =>
        let w := set_nextChar (nextChar w + 1) w in
        if nextChar w =? 1023 then
          match poke 1023 NUL w with
          | Some w =>
              let w := log (print "ERROR LINE TOO LONG: ") w in
              let w := log (println (c_str (inputbuffer w))) w in
              Some (changed, set_nextChar 0 w)
          | None => None
          end
        else Some (changed, w)
    | None => None
    end.

(** The [while] loop of [check] over the bytes the stream has available. *)
Fixpoint drain (avail : list ascii) (changed : bool) (w : WiThrottleProtocol)
  : option (bool * WiThrottleProtocol) :=
  match avail with
  | [] => Some (changed, w)
  | b :: rest =>
      match frame_byte b changed w with
      | Some (changed, w) => drain rest changed w
      | None => None
      end
  end.

(** One poll, when the seconds clock reads [now] and the stream holds the
    bytes [avail]. *)
Definition check (now : Z) (avail : list ascii) (w : WiThrottleProtocol)
  : option (bool * WiThrottleProtocol) :=
  let changed := false in
  let w := resetChangeFlags w in
  match stream w with
  | Some _ =>
      let (r, w) := checkFastTime now w in
      let changed := changed || r in
      let (r, w) := checkHeartbeat now w in
      let changed := changed || r in
      drain avail changed w
  | None => Some (false, w)
  end.

(** ** Vocabulary of the statements *)

(** The lines one [sendCommand] puts on an attached stream. *)
Definition sent (srv : bool) (cmd : string) : list string :=
  if srv then [cmd; ""] else [cmd].

(** [n] copies of the marker, end to end. *)
Fixpoint garbage_times (n : nat) : string :=
  match n with
  | O => EmptyString
  | S k => ignoreThisGarbage ++ garbage_times k
  end.

(** The array after the bytes [l] were stored from offset [off] on. *)
Fixpoint blit (off : nat) (l : list ascii) (buf : list ascii) : list ascii :=
  match l with
  | [] => buf
  | a :: r => blit (S off) r (store off a buf)
  end.

Definition is_terminator (b : ascii) : bool :=
  Ascii.eqb b NEWLINE || Ascii.eqb b CR.

(** The framer's invariant: the cursor is below the line limit, and the
    array has room for the limit and the terminator written there. *)
Definition framer_ok (w : WiThrottleProtocol) : Prop :=
  0 <= nextChar w <= 1022 /\ (1024 <= List.length (inputbuffer w))%nat.

Definition is_action (a : ascii) : bool :=
  Ascii.eqb a "F" || Ascii.eqb a "V" || Ascii.eqb a "s" || Ascii.eqb a "R".

(** The console's record of one round of the marker-stripping loop. *)
Definition removed_one : ConsoleCall :=
  printf "removed one instance of %s\n" [ArgStr ignoreThisGarbage].

Definition input_now (c : string) : ConsoleCall :=
  printf "input string is now: '%s'\n" [ArgStr c].

(** The console once [processCommand] has echoed the line [n] markers and
    [c] make up, and removed the markers. *)
Definition stripped_console (n : nat) (c : string) (w : WiThrottleProtocol)
  : list ConsoleCall :=
  (console w ++ [print "<== "; println (garbage_times n ++ c)]
     ++ repeat removed_one n
     ++ (if Nat.eqb n 0 then [] else [input_now c]))%list.

(** What is left of the remainder once a leading address or wildcard, with
    its separator, is removed. *)
Definition action_body (c : string) (w : WiThrottleProtocol) : string :=
  let addrCheck := currentAddress w ++ PROPERTY_SEPARATOR in
  let allCheck := "*" ++ PROPERTY_SEPARATOR in
  if WString.startsWith c addrCheck then advance (String.length addrCheck) c
  else if WString.startsWith c allCheck then advance (String.length allCheck) c
  else c.

(** The input buffer and its cursor. *)
Definition buffer_of (w : WiThrottleProtocol) : list ascii * Z :=
  (inputbuffer w, nextChar w).

(** The state in which the framer hands the line [l] to [processCommand]:
    the line and its terminating NUL at the start of the array, the cursor
    behind the line. *)
Definition line_framed (l : list ascii) (w : WiThrottleProtocol)
  : WiThrottleProtocol :=
  set_nextChar (Z.of_nat (List.length l))
    (set_inputbuffer (blit 0 (l ++ [NUL]) (inputbuffer w)) w).

(** What the framer does with a line [l] that starts at cursor 0 and
    ends at a terminator. *)
Definition line_dispatched (l : list ascii) (changed : bool)
  (w : WiThrottleProtocol) : option (bool * WiThrottleProtocol) :=
  let (r, w') := processCommand (c_str l) (Z.of_nat (List.length l))
                   (line_framed l w) in
  Some (changed || r, set_nextChar 0 w').

(** An engine just connected, with a delegate, for the examples. *)
Definition fresh_engine : WiThrottleProtocol :=
  attach (connect (create false 1024 0)).

Definition selected_engine : WiThrottleProtocol :=
  snd (addLocomotive "S123" fresh_engine).

(** The engine once the server has announced a heartbeat period of ten
    seconds; its timers started at second 0. *)
Definition heartbeat_engine : WiThrottleProtocol :=
  set_heartbeatPeriod 10 fresh_engine.

(** The same with an odd period, five seconds, and with the shortest one,
    one second. *)
Definition odd_heartbeat_engine : WiThrottleProtocol :=
  set_heartbeatPeriod 5 fresh_engine.

Definition shortest_heartbeat_engine : WiThrottleProtocol :=
  set_heartbeatPeriod 1 fresh_engine.

(** A conversion that reads every rate as 0, for the examples; none of
    them parses a rate. *)
Definition zero_rate (s : string) : float := of_int 0.

(** An address [addLocomotive] accepts. *)
Definition valid_address (a : string) : bool :=
  Ascii.eqb (ch a 0) "S" || Ascii.eqb (ch a 0) "L".

(** Whether the character [x] occurs in [s]. *)
Fixpoint occurs (x : ascii) (s : string) : bool :=
  match s with
  | EmptyString => false
  | String a r => Ascii.eqb a x || occurs x r
  end.

(** What the parsers of inbound lines never write: the stream, the
    selection and its cached speed, the timers and the input buffer. *)
Definition outbound_view (w : WiThrottleProtocol) :=
  (stream w, server w, currentAddress w, locomotiveSelected w, currentSpeed w,
   speedSteps w, heartbeatTimer w, fastTimeTimer w, inputbuffer w, nextChar w).

(** What an engine without a delegate keeps across inbound lines. *)
Definition listener_view (w : WiThrottleProtocol) :=
  (delegate w, currentDirection w).

(** A second engine, with a delegate and ["S123"] selected, in the server
    role. *)
Definition peer_engine : WiThrottleProtocol :=
  snd (addLocomotive "S123" (attach (connect (create true 1024 0)))).

(** A connected engine whose fast clock runs at rate 4. *)
Definition running_clock_engine : WiThrottleProtocol :=
  set_currentFastTimeRate (of_int 4) fresh_engine.

(** ** Supporting lemmas *)

(** *** What [sendCommand] touches: the stream and the console only *)

Lemma sendCommand_session (cmd : string) (w : WiThrottleProtocol) :
  currentAddress (sendCommand cmd w) = currentAddress w
  /\ locomotiveSelected (sendCommand cmd w) = locomotiveSelected w
  /\ currentSpeed (sendCommand cmd w) = currentSpeed w
  /\ currentDirection (sendCommand cmd w) = currentDirection w.
Proof using.
  unfold sendCommand.
  destruct (stream w); [destruct (server w) eqn:E|]; repeat split; cbn; auto.
Qed.

Lemma sendCommand_timers (cmd : string) (w : WiThrottleProtocol) :
  heartbeatPeriod (sendCommand cmd w) = heartbeatPeriod w
  /\ heartbeatTimer (sendCommand cmd w) = heartbeatTimer w
  /\ fastTimeTimer (sendCommand cmd w) = fastTimeTimer w
  /\ server (sendCommand cmd w) = server w.
Proof using.
  unfold sendCommand.
  destruct (stream w); [destruct (server w) eqn:E|]; repeat split; cbn; auto.
Qed.

Lemma sendCommand_stream (cmd : string) (w : WiThrottleProtocol) (out : list string) :
  stream w = Some out ->
  stream (sendCommand cmd w) = Some (out ++ sent (server w) cmd)%list.
Proof using.
  intros H. unfold sendCommand, sent. rewrite H.
  destruct (server w); cbn; [rewrite <- app_assoc|]; reflexivity.
Qed.

Lemma sendCommand_detached (cmd : string) (w : WiThrottleProtocol) :
  stream w = None -> sendCommand cmd w = w.
Proof using. intros H. unfold sendCommand. now rewrite H. Qed.

(** *** The timers' comparisons, in integers *)

Lemma truncate_half (p : Z) :
  0 < p -> truncate (Qmult (1 # 2) (inject_Z p)) = p / 2.
Proof using.
  intros H. unfold truncate, Qmult, inject_Z; cbn [Qnum Qden].
  rewrite Z.mul_1_l. change (Z.pos (2 * 1)) with 2.
  apply Z.quot_div_nonneg; lia.
Qed.

Lemma hasPassed_half (c : Chrono.t) (now p : Z) :
  0 < p ->
  Chrono.hasPassed c now (truncate (Qmult (1 # 2) (inject_Z p))) = true
  <-> p / 2 <= Chrono.elapsed c now.
Proof using.
  intros H. unfold Chrono.hasPassed. rewrite truncate_half by exact H.
  apply Z.leb_le.
Qed.

Lemma hasPassed_one (c : Chrono.t) (now : Z) :
  Chrono.hasPassed c now 1 = true <-> 1 <= Chrono.elapsed c now.
Proof using. unfold Chrono.hasPassed. apply Z.leb_le. Qed.

Lemma checkFastTime_true (now : Z) (w : WiThrottleProtocol) :
  fst (checkFastTime now w) = true.
Proof using.
  unfold checkFastTime.
  destruct (Chrono.hasPassed _ _ _); [destruct (PrimFloat.eqb _ _)|]; reflexivity.
Qed.

Lemma checkHeartbeat_idle (now : Z) (w : WiThrottleProtocol) :
  heartbeatPeriod w <= 0
  \/ Chrono.elapsed (heartbeatTimer w) now < heartbeatPeriod w / 2 ->
  checkHeartbeat now w = (false, w).
Proof using.
  intros H. unfold checkHeartbeat.
  destruct (heartbeatPeriod w >? 0) eqn:Ep; [|reflexivity].
  destruct (Chrono.hasPassed _ _ _) eqn:E; [|reflexivity].
  apply Z.gtb_lt in Ep. apply hasPassed_half in E; [|exact Ep]. lia.
Qed.

Lemma checkHeartbeat_due (now : Z) (w : WiThrottleProtocol) :
  0 < heartbeatPeriod w ->
  heartbeatPeriod w / 2 <= Chrono.elapsed (heartbeatTimer w) now ->
  checkHeartbeat now w
  = (true, sendCommand "*" (set_heartbeatTimer (Chrono.restart now) w)).
Proof using.
  intros Hp He. unfold checkHeartbeat.
  apply (hasPassed_half _ _ _ Hp) in He. rewrite He.
  now replace (heartbeatPeriod w >? 0) with true by (symmetry; apply Z.gtb_lt; lia).
Qed.

(** *** Strings *)

Lemma prefix_app (p s : string) : String.prefix p (p ++ s) = true.
Proof using.
  induction p as [|a p IH]; cbn; [now destruct s|].
  destruct (ascii_dec a a); [exact IH|congruence].
Qed.

Lemma advance_app (p s : string) : (p ++ s) +> String.length p = s.
Proof using. induction p as [|a p IH]; cbn; [now destruct s|exact IH]. Qed.

Lemma append_assoc (a b c : string) : (a ++ b) ++ c = a ++ b ++ c.
Proof using. induction a as [|x a IH]; cbn; [reflexivity|now rewrite IH]. Qed.

Lemma string_length_app (a b : string) :
  String.length (a ++ b) = (String.length a + String.length b)%nat.
Proof using. induction a as [|x a IH]; cbn; [reflexivity|now rewrite IH]. Qed.

Lemma prefix_length (p s : string) :
  String.prefix p s = true -> (String.length p <= String.length s)%nat.
Proof using.
  revert s. induction p as [|a p IH]; intros [|b s]; cbn; try lia; try discriminate.
  destruct (ascii_dec a b); [|discriminate]. intros H. apply IH in H. lia.
Qed.

Lemma advance_length (n : nat) (s : string) :
  (n <= String.length s)%nat ->
  String.length (s +> n) = (String.length s - n)%nat.
Proof using.
  revert s. induction n as [|n IH]; intros [|a s]; cbn; try lia.
  intros H. apply IH. lia.
Qed.

(** What [String::trim] returns never ends in a newline. *)
Lemma drop_trailing_space_not_eol (s t : string) :
  WString.drop_trailing_space s <> eol t.
Proof using.
  revert t. induction s as [|a s IH]; intros t; cbn.
  - destruct t; discriminate.
  - destruct (WString.drop_trailing_space s) as [|b r] eqn:E.
    + destruct (WString.isspace a) eqn:Ea.
      * destruct t; discriminate.
      * destruct t as [|x t]; cbn.
        -- intros H. injection H as ->. discriminate.
        -- destruct t; discriminate.
    + destruct t as [|x t]; cbn.
      * discriminate.
      * intros H. injection H as _ H. exact (IH t H).
Qed.

Lemma trim_not_eol (s t : string) :
  WString.equals (WString.trim s) (eol t) = false.
Proof using.
  unfold WString.equals, WString.trim. apply String.eqb_neq.
  apply drop_trailing_space_not_eol.
Qed.

(** *** The delegate pointer across the console's and its own calls *)

Lemma delegate_log (m : ConsoleCall) (w : WiThrottleProtocol) :
  delegate (log m w) = delegate w.
Proof using. reflexivity. Qed.

Lemma delegate_call (e : DelegateCall) (w : WiThrottleProtocol)
  (l : list DelegateCall) :
  delegate w = Some l -> delegate (call e w) = Some (l ++ [e])%list.
Proof using. intros H. unfold call. now rewrite H. Qed.

Lemma has_delegate_attached (w : WiThrottleProtocol) (l : list DelegateCall) :
  delegate w = Some l -> has_delegate w = true.
Proof using. intros H. unfold has_delegate. now rewrite H. Qed.

Lemma delegate_dump_entry (entry : string) (i : Z) (w : WiThrottleProtocol) :
  delegate (dump_entry i entry w) = delegate w.
Proof using.
  revert i w. induction entry as [|a r IH]; intros i w; cbn; [reflexivity|].
  now rewrite IH.
Qed.

(** *** The marker-stripping loop *)

(** The fuel [processCommand] gives the loop is enough: the loop ends
    because the marker no longer leads the string. *)
Lemma strip_garbage_terminates (fuel : nat) (c : string) (changed : bool)
  (w : WiThrottleProtocol) :
  (String.length c < fuel)%nat ->
  String.prefix ignoreThisGarbage (fst (fst (strip_garbage fuel c changed w)))
  = false.
Proof using.
  revert c changed w. induction fuel as [|fuel IH]; intros c changed w H; [lia|].
  cbn [strip_garbage].
  destruct (String.prefix ignoreThisGarbage c) eqn:E; [|exact E].
  apply IH. apply prefix_length in E.
  rewrite advance_length by exact E.
  change (String.length ignoreThisGarbage) with 14%nat in *. lia.
Qed.

Lemma strip_garbage_times (n : nat) :
  forall (fuel : nat) (c : string) (changed : bool) (l : list ConsoleCall)
         (w : WiThrottleProtocol),
  (n < fuel)%nat ->
  String.prefix ignoreThisGarbage c = false ->
  strip_garbage fuel (garbage_times n ++ c) changed (set_console l w)
  = (c, changed || negb (Nat.eqb n 0), set_console (l ++ repeat removed_one n)%list w).
Proof using.
  induction n as [|n IH]; intros fuel c changed l w Hf Hc.
  - destruct fuel as [|fuel]; [lia|]. cbn [garbage_times strip_garbage].
    change ("" ++ c) with c. rewrite Hc, app_nil_r, orb_false_r. reflexivity.
  - destruct fuel as [|fuel]; [lia|]. cbn [garbage_times strip_garbage].
    rewrite append_assoc, prefix_app, advance_app.
    match goal with
    | |- context [log ?m (set_console l w)] =>
        change (log m (set_console l w)) with (set_console (l ++ [removed_one])%list w)
    end.
    rewrite IH by (auto; lia).
    rewrite <- app_assoc, orb_true_l, orb_true_r. reflexivity.
Qed.

(** *** A poll that starts with [changed] set ends with it set *)

Lemma frame_byte_keeps_true (b : ascii) (w w' : WiThrottleProtocol) (r : bool) :
  frame_byte b true w = Some (r, w') -> r = true.
Proof using.
  unfold frame_byte.
  destruct (_ || _).
  - destruct (negb _); [|now inversion 1].
    destruct (poke _ _ _); [|discriminate].
    destruct (processCommand _ _ _). now inversion 1.
  - destruct (poke _ _ _); [|discriminate].
    cbv zeta. destruct (_ =? 1023).
    + destruct (poke _ _ _); [|discriminate]. now inversion 1.
    + now inversion 1.
Qed.

Lemma drain_keeps_true (avail : list ascii) :
  forall (w w' : WiThrottleProtocol) (r : bool),
  drain avail true w = Some (r, w') -> r = true.
Proof using.
  induction avail as [|b rest IH]; intros w w' r; cbn.
  - now inversion 1.
  - destruct (frame_byte b true w) as [[r1 w1]|] eqn:E; [|discriminate].
    apply frame_byte_keeps_true in E. subst r1. apply IH.
Qed.

(** Whatever arrives, a poll of a connected engine that returns at all
    returns [true]. *)
Lemma check_connected_returns_true (now : Z) (avail : list ascii)
  (w w' : WiThrottleProtocol) (out : list string) (r : bool) :
  stream w = Some out -> check now avail w = Some (r, w') -> r = true.
Proof using.
  intros Hs. unfold check.
  change (stream (resetChangeFlags w)) with (stream w). rewrite Hs.
  pose proof (checkFastTime_true now (resetChangeFlags w)) as Hf.
  destruct (checkFastTime now (resetChangeFlags w)) as [r1 w1].
  cbn in Hf. subst r1.
  destruct (checkHeartbeat now w1) as [r2 w2]. cbn [orb].
  apply drain_keeps_true.
Qed.

(** *** The dispatcher after the loop *)

Lemma garbage_times_length (n : nat) :
  String.length (garbage_times n) = (14 * n)%nat.
Proof using.
  induction n as [|n IH]; [reflexivity|].
  cbn [garbage_times]. rewrite string_length_app, IH.
  change (String.length ignoreThisGarbage) with 14%nat. lia.
Qed.

Lemma processCommand_strips (n : nat) (c : string) (len : Z)
  (w : WiThrottleProtocol) :
  String.prefix ignoreThisGarbage c = false ->
  processCommand (garbage_times n ++ c) len w
  = dispatch c len (set_console (stripped_console n c w) w).
Proof using.
  intros Hc. unfold processCommand, stripped_console.
  match goal with
  | |- context [log ?a (log ?b w)] =>
      change (log a (log b w)) with (set_console ((console w ++ [b]) ++ [a])%list w)
  end.
  rewrite strip_garbage_times
    by (auto; rewrite string_length_app, garbage_times_length; lia).
  cbn [orb]. destruct n as [|n]; cbn [Nat.eqb negb].
  - f_equal. rewrite !app_nil_r, <- app_assoc. reflexivity.
  - match goal with
    | |- context [log ?a (set_console ?l w)] =>
        change (log a (set_console l w)) with (set_console (l ++ [input_now c])%list w)
    end.
    f_equal. f_equal. rewrite <- !app_assoc. reflexivity.
Qed.

Lemma processCommand_clean (c : string) (len : Z) (w : WiThrottleProtocol) :
  String.prefix ignoreThisGarbage c = false ->
  processCommand c len w
  = dispatch c len (set_console (stripped_console 0 c w) w).
Proof using. exact (processCommand_strips 0 c len w). Qed.

Lemma dispatch_locomotive_action (x : string) (len : Z) (w : WiThrottleProtocol) :
  8 < len ->
  dispatch ("MTA" ++ x) len w = processLocomotiveAction x (len - 3) w.
Proof using.
  intros H. unfold dispatch.
  replace (len >? 3) with true by (symmetry; apply Z.gtb_lt; lia).
  replace (len >? 1) with true by (symmetry; apply Z.gtb_lt; lia).
  replace (len >? 2) with true by (symmetry; apply Z.gtb_lt; lia).
  replace (len >? 6) with true by (symmetry; apply Z.gtb_lt; lia).
  replace (len >? 8) with true by (symmetry; apply Z.gtb_lt; lia).
  reflexivity.
Qed.

(** *** The locomotive action sub-parser *)

Lemma processLocomotiveAction_selected (c : string) (len : Z)
  (w : WiThrottleProtocol) :
  currentAddress w <> "" ->
  processLocomotiveAction c len w
  = if strlen (action_body c w) >? 0
    then (true, locomotiveSwitch (action_body c w) w)
    else (false, log (printf "insufficient action to process\n" []) w).
Proof using.
  intros Ha. unfold processLocomotiveAction, WString.equals.
  destruct (String.eqb (currentAddress w) "") eqn:E.
  - apply String.eqb_eq in E. contradiction.
  - reflexivity.
Qed.

Lemma strlen_pos (a : ascii) (s : string) : (strlen (String a s) >? 0) = true.
Proof using. apply Z.gtb_lt. unfold strlen. cbn [String.length]. lia. Qed.

Lemma valid_address_nonempty (a : string) :
  Ascii.eqb (ch a 0) "S" || Ascii.eqb (ch a 0) "L" = true -> a <> "".
Proof using. intros H ->. discriminate. Qed.

Lemma action_body_wildcard (x : string) (w : WiThrottleProtocol) :
  Ascii.eqb (ch (currentAddress w) 0) "S"
  || Ascii.eqb (ch (currentAddress w) 0) "L" = true ->
  action_body ("*" ++ PROPERTY_SEPARATOR ++ x) w = x.
Proof using.
  intros H. unfold action_body, WString.startsWith.
  destruct (currentAddress w) as [|a r]; [discriminate|].
  cbn [ch String.get] in H.
  assert (E : String.prefix (String a r ++ PROPERTY_SEPARATOR)
                ("*" ++ PROPERTY_SEPARATOR ++ x) = false).
  { apply orb_true_iff in H.
    destruct H as [H|H]; apply Ascii.eqb_eq in H; subst a; reflexivity. }
  rewrite E, <- append_assoc, prefix_app, advance_app. reflexivity.
Qed.

Lemma action_body_address (x : string) (w : WiThrottleProtocol) :
  action_body (currentAddress w ++ PROPERTY_SEPARATOR ++ x) w = x.
Proof using.
  unfold action_body, WString.startsWith.
  rewrite <- append_assoc, prefix_app, advance_app. reflexivity.
Qed.

Lemma processSpeed_attached (rest : string) (w : WiThrottleProtocol)
  (l : list DelegateCall) :
  delegate w = Some l ->
  rest <> "" ->
  let parsed := WString.toInt rest in
  let v := if (0 <=? parsed) && (parsed <=? 126) then parsed else 0 in
  processSpeed (String "V" rest) w = call (receivedSpeed v) w.
Proof using.
  intros Hd Hr parsed v. unfold processSpeed.
  rewrite (has_delegate_attached w l Hd).
  replace (strlen (String "V" rest) >=? 2) with true.
  2:{ symmetry. apply Z.geb_le. unfold strlen. destruct rest; [contradiction|].
      cbn [String.length]. lia. }
  cbn [andb WString.substring_from advance]. fold parsed.
  unfold MIN_SPEED, MAX_SPEED. subst v.
  destruct (parsed <? 0) eqn:E1; destruct (parsed >? 126) eqn:E2;
    destruct (0 <=? parsed) eqn:E3; destruct (parsed <=? 126) eqn:E4;
    cbn [orb andb]; try reflexivity; exfalso;
    rewrite ?Z.ltb_lt, ?Z.ltb_ge, ?Z.gtb_ltb, ?Z.leb_le, ?Z.leb_gt in *; lia.
Qed.

(** *** The parsers leave the input buffer and its cursor alone *)

Ltac branches :=
  repeat match goal with
    | |- context [if ?b then _ else _] => destruct b
    | |- context [match delegate ?w with Some _ => _ | None => _ end] =>
        destruct (delegate w)
    end.

Ltac untouched := cbv zeta; unfold call, log; branches; reflexivity.

Lemma buffer_processFunctionState (s : string) (w : WiThrottleProtocol) :
  buffer_of (processFunctionState s w) = buffer_of w.
Proof using. unfold processFunctionState. untouched. Qed.

Lemma buffer_processSpeed (s : string) (w : WiThrottleProtocol) :
  buffer_of (processSpeed s w) = buffer_of w.
Proof using. unfold processSpeed. untouched. Qed.

Lemma buffer_processSpeedSteps (s : string) (w : WiThrottleProtocol) :
  buffer_of (processSpeedSteps s w) = buffer_of w.
Proof using. unfold processSpeedSteps. untouched. Qed.

Lemma buffer_processDirection (s : string) (w : WiThrottleProtocol) :
  buffer_of (processDirection s w) = buffer_of w.
Proof using. unfold processDirection. untouched. Qed.

Lemma buffer_locomotiveSwitch (s : string) (w : WiThrottleProtocol) :
  buffer_of (locomotiveSwitch s w) = buffer_of w.
Proof using.
  unfold locomotiveSwitch. cbv zeta.
  repeat match goal with |- context [if ?b then _ else _] => destruct b end;
    auto using buffer_processFunctionState, buffer_processSpeed,
      buffer_processSpeedSteps, buffer_processDirection.
Qed.

Lemma buffer_processLocomotiveAction (c : string) (len : Z) (w : WiThrottleProtocol) :
  buffer_of (snd (processLocomotiveAction c len w)) = buffer_of w.
Proof using.
  unfold processLocomotiveAction. cbv zeta.
  destruct (WString.equals _ _); [reflexivity|].
  destruct (strlen _ >? 0); [|reflexivity].
  apply buffer_locomotiveSwitch.
Qed.

Lemma buffer_processHeartbeat (c : string) (len : Z) (w : WiThrottleProtocol) :
  buffer_of (snd (processHeartbeat c len w)) = buffer_of w.
Proof using. unfold processHeartbeat. untouched. Qed.

Lemma buffer_processProtocolVersion (c : string) (len : Z) (w : WiThrottleProtocol) :
  buffer_of (processProtocolVersion c len w) = buffer_of w.
Proof using. unfold processProtocolVersion. untouched. Qed.

Lemma buffer_processWebPort (c : string) (len : Z) (w : WiThrottleProtocol) :
  buffer_of (processWebPort c len w) = buffer_of w.
Proof using. unfold processWebPort. untouched. Qed.

Lemma buffer_processTrackPower (c : string) (len : Z) (w : WiThrottleProtocol) :
  buffer_of (processTrackPower c len w) = buffer_of w.
Proof using. unfold processTrackPower. untouched. Qed.

Lemma buffer_dump_entry (entry : string) (i : Z) (w : WiThrottleProtocol) :
  buffer_of (dump_entry i entry w) = buffer_of w.
Proof using.
  revert i w. induction entry as [|a r IH]; intros i w; cbn; [reflexivity|].
  now rewrite IH.
Qed.

Lemma buffer_processAddRemove (c : string) (len : Z) (w : WiThrottleProtocol) :
  buffer_of (processAddRemove c len w) = buffer_of w.
Proof using.
  unfold processAddRemove. cbv zeta. unfold call, log.
  branches; rewrite ?buffer_dump_entry; reflexivity.
Qed.

Lemma buffer_processStealNeeded (c : string) (len : Z) (w : WiThrottleProtocol) :
  buffer_of (processStealNeeded c len w) = buffer_of w.
Proof using. unfold processStealNeeded. untouched. Qed.

Lemma buffer_setCurrentFastTime (s : string) (w : WiThrottleProtocol) :
  buffer_of (setCurrentFastTime s w) = buffer_of w.
Proof using. unfold setCurrentFastTime. untouched. Qed.

Lemma buffer_processFastTime (c : string) (len : Z) (w : WiThrottleProtocol) :
  buffer_of (snd (processFastTime c len w)) = buffer_of w.
Proof using.
  unfold processFastTime. cbv zeta.
  destruct (_ >? 0); cbn [snd]; [|apply buffer_setCurrentFastTime].
  exact (buffer_setCurrentFastTime _ w).
Qed.

Lemma buffer_strip_garbage (fuel : nat) :
  forall (c : string) (changed : bool) (w : WiThrottleProtocol),
  buffer_of (snd (strip_garbage fuel c changed w)) = buffer_of w.
Proof using.
  induction fuel as [|fuel IH]; intros c changed w; cbn [strip_garbage];
    [reflexivity|].
  destruct (String.prefix _ _); [|reflexivity]. now rewrite IH.
Qed.

Lemma buffer_dispatch (c : string) (len : Z) (w : WiThrottleProtocol) :
  buffer_of (snd (dispatch c len w)) = buffer_of w.
Proof using.
  unfold dispatch.
  repeat match goal with |- context [if ?b then _ else _] => destruct b end;
    cbn [snd];
    auto using buffer_processFastTime, buffer_processTrackPower,
      buffer_processHeartbeat, buffer_processProtocolVersion,
      buffer_processWebPort, buffer_processStealNeeded,
      buffer_processAddRemove, buffer_processLocomotiveAction.
Qed.

Lemma buffer_processCommand (c : string) (len : Z) (w : WiThrottleProtocol) :
  buffer_of (snd (processCommand c len w)) = buffer_of w.
Proof using.
  unfold processCommand. cbv zeta.
  pose proof (buffer_strip_garbage (S (String.length c)) c false
                (log (println c) (log (print "<== ") w))) as H.
  destruct (strip_garbage _ _ _ _) as [[c' changed] w'].
  cbn [snd] in H. rewrite buffer_dispatch.
  destruct changed; exact H.
Qed.

(** *** Stores into the array *)

Lemma store_length (buf : list ascii) :
  forall (i : nat) (b : ascii), List.length (store i b buf) = List.length buf.
Proof using.
  induction buf as [|a r IH]; intros [|i] b; cbn; auto.
Qed.

Lemma firstn_store (buf : list ascii) :
  forall (i : nat) (b : ascii),
  (i < List.length buf)%nat ->
  firstn (S i) (store i b buf) = (firstn i buf ++ [b])%list.
Proof using.
  induction buf as [|a r IH]; intros [|i] b H; cbn in *; try lia.
  - reflexivity.
  - f_equal. apply IH. lia.
Qed.

Lemma skipn_store (buf : list ascii) :
  forall (i m : nat) (b : ascii),
  (i < m)%nat -> skipn m (store i b buf) = skipn m buf.
Proof using.
  induction buf as [|a r IH]; intros [|i] [|m] b H; cbn; try lia; auto.
  apply IH. lia.
Qed.

Lemma blit_length (l : list ascii) :
  forall (off : nat) (buf : list ascii),
  List.length (blit off l buf) = List.length buf.
Proof using.
  induction l as [|a r IH]; intros off buf; cbn; [reflexivity|].
  now rewrite IH, store_length.
Qed.

Lemma blit_app (l l' : list ascii) :
  forall (off : nat) (buf : list ascii),
  blit off (l ++ l') buf = blit (off + List.length l) l' (blit off l buf).
Proof using.
  induction l as [|a r IH]; intros off buf; cbn.
  - now rewrite Nat.add_0_r.
  - rewrite IH. f_equal. lia.
Qed.

Lemma blit_spec (l : list ascii) :
  forall (off : nat) (buf : list ascii),
  (off + List.length l <= List.length buf)%nat ->
  blit off l buf = (firstn off buf ++ l ++ skipn (off + List.length l) buf)%list.
Proof using.
  induction l as [|a r IH]; intros off buf H; cbn in *.
  - now rewrite Nat.add_0_r, firstn_skipn.
  - replace (off + S (List.length r))%nat with (S off + List.length r)%nat by lia.
    rewrite IH by (rewrite store_length; lia).
    rewrite firstn_store by lia. rewrite skipn_store by lia.
    rewrite <- app_assoc. reflexivity.
Qed.

Lemma c_str_app_nul (l rest : list ascii) :
  c_str (l ++ NUL :: rest) = c_str l.
Proof using.
  induction l as [|a r IH]; cbn; [reflexivity|].
  destruct (Ascii.eqb a NUL); [reflexivity|now rewrite IH].
Qed.

(** The string [processCommand] is given is the line just stored. *)
Lemma c_str_blit (l buf : list ascii) :
  (List.length l < List.length buf)%nat ->
  c_str (blit 0 (l ++ [NUL]) buf) = c_str l.
Proof using.
  intros H. rewrite blit_spec by (rewrite List.length_app; cbn; lia).
  cbn [firstn app]. rewrite <- app_assoc. apply c_str_app_nul.
Qed.

Lemma poke_in_bounds (i : Z) (b : ascii) (w : WiThrottleProtocol) :
  0 <= i < Z.of_nat (List.length (inputbuffer w)) ->
  poke i b w = Some (set_inputbuffer (store (Z.to_nat i) b (inputbuffer w)) w).
Proof using.
  intros H. unfold poke.
  replace (0 <=? i) with true by (symmetry; apply Z.leb_le; lia).
  now replace (i <? Z.of_nat (List.length (inputbuffer w))) with true
    by (symmetry; apply Z.ltb_lt; lia).
Qed.

(** *** One byte, then many *)

Lemma frame_byte_ok (b : ascii) (changed : bool) (w : WiThrottleProtocol) :
  framer_ok w ->
  exists changed' w',
    frame_byte b changed w = Some (changed', w')
    /\ framer_ok w'
    /\ List.length (inputbuffer w') = List.length (inputbuffer w).
Proof using.
  intros [Hc Hl]. unfold frame_byte.
  rewrite !poke_in_bounds by lia.
  destruct (_ || _).
  - destruct (negb _).
    + cbn [nextChar inputbuffer set_inputbuffer].
      set (w1 := set_inputbuffer _ w).
      pose proof (buffer_processCommand (c_str (store (Z.to_nat (nextChar w)) NUL (inputbuffer w)))
                    (nextChar w) w1) as Hb.
      destruct (processCommand _ _ w1) as [r w2]. cbn [snd] in Hb.
      injection Hb as Hb1 Hb2.
      exists (changed || r), (set_nextChar 0 w2).
      split; [reflexivity|]. unfold framer_ok.
      cbn [nextChar inputbuffer set_nextChar]. rewrite Hb1.
      unfold w1. cbn [inputbuffer set_inputbuffer]. rewrite store_length.
      repeat split; lia.
    + exists changed, (set_nextChar 0 w). split; [reflexivity|].
      unfold framer_ok. cbn [nextChar inputbuffer set_nextChar]. repeat split; lia.
  - cbv zeta. cbn [nextChar inputbuffer set_inputbuffer set_nextChar].
    destruct (nextChar w + 1 =? 1023) eqn:E.
    + rewrite poke_in_bounds
        by (cbn [nextChar inputbuffer set_inputbuffer set_nextChar];
            rewrite store_length; lia).
      eexists _, _. split; [reflexivity|]. unfold framer_ok, log.
      cbn [nextChar inputbuffer set_inputbuffer set_nextChar set_console].
      rewrite !store_length. repeat split; lia.
    + apply Z.eqb_neq in E.
      eexists _, _. split; [reflexivity|]. unfold framer_ok.
      cbn [nextChar inputbuffer set_inputbuffer set_nextChar].
      rewrite !store_length. repeat split; lia.
Qed.

Lemma drain_ok (avail : list ascii) :
  forall (changed : bool) (w : WiThrottleProtocol),
  framer_ok w ->
  exists changed' w',
    drain avail changed w = Some (changed', w')
    /\ framer_ok w'
    /\ List.length (inputbuffer w') = List.length (inputbuffer w).
Proof using.
  induction avail as [|b rest IH]; intros changed w H; cbn [drain].
  - now exists changed, w.
  - destruct (frame_byte_ok b changed w H) as (c1 & w1 & E & H1 & L1).
    rewrite E.
    destruct (IH c1 w1 H1) as (c2 & w2 & E2 & H2 & L2).
    exists c2, w2. split; [exact E2|]. split; [exact H2|]. now rewrite L2.
Qed.

Lemma drain_app (l l' : list ascii) :
  forall (changed : bool) (w : WiThrottleProtocol),
  drain (l ++ l') changed w
  = match drain l changed w with
    | Some (changed', w') => drain l' changed' w'
    | None => None
    end.
Proof using.
  induction l as [|b r IH]; intros changed w; cbn [drain app]; [reflexivity|].
  destruct (frame_byte b changed w) as [[c1 w1]|]; [apply IH|reflexivity].
Qed.

Lemma frame_byte_terminator (t : ascii) (changed changed' : bool)
  (w w' : WiThrottleProtocol) :
  is_terminator t = true ->
  frame_byte t changed w = Some (changed', w') -> nextChar w' = 0.
Proof using.
  unfold is_terminator, frame_byte. intros ->.
  destruct (negb _).
  - destruct (poke _ _ _); [|discriminate].
    destruct (processCommand _ _ _). now inversion 1.
  - now inversion 1.
Qed.

(** Bytes of one line, short of the limit: each is stored at the cursor. *)
Lemma drain_payload (l : list ascii) :
  forall (changed : bool) (w : WiThrottleProtocol),
  Forall (fun b => is_terminator b = false) l ->
  0 <= nextChar w ->
  nextChar w + Z.of_nat (List.length l) < 1023 ->
  nextChar w + Z.of_nat (List.length l) <= Z.of_nat (List.length (inputbuffer w)) ->
  drain l changed w
  = Some (changed,
          set_nextChar (nextChar w + Z.of_nat (List.length l))
            (set_inputbuffer (blit (Z.to_nat (nextChar w)) l (inputbuffer w)) w)).
Proof using.
  induction l as [|a r IH]; intros changed w Hp H0 Hlim Hlen.
  - cbn. rewrite Z.add_0_r. now destruct w.
  - cbn [List.length] in Hlim, Hlen. inversion Hp as [|? ? Ha Hr]; subst.
    cbn [drain]. unfold frame_byte.
    unfold is_terminator in Ha. rewrite Ha.
    rewrite poke_in_bounds by lia. cbv zeta.
    cbn [nextChar inputbuffer set_inputbuffer set_nextChar].
    replace (nextChar w + 1 =? 1023) with false by (symmetry; apply Z.eqb_neq; lia).
    rewrite IH; cbn [nextChar inputbuffer set_inputbuffer set_nextChar];
      rewrite ?store_length; try lia; [|exact Hr].
    cbn [blit List.length].
    replace (Z.to_nat (nextChar w + 1)) with (S (Z.to_nat (nextChar w))) by lia.
    replace (nextChar w + 1 + Z.of_nat (List.length r))
      with (nextChar w + Z.of_nat (S (List.length r))) by lia.
    reflexivity.
Qed.

Lemma drain_line (l : list ascii) (t : ascii) (changed : bool)
  (w : WiThrottleProtocol) :
  framer_ok w ->
  nextChar w = 0 ->
  l <> [] ->
  (List.length l < 1023)%nat ->
  Forall (fun b => is_terminator b = false) l ->
  is_terminator t = true ->
  drain (l ++ [t]) changed w = line_dispatched l changed w.
Proof using.
  intros [Hc Hl] Hn Hne Hlen Hp Ht.
  rewrite drain_app, drain_payload by (auto; lia).
  rewrite Hn. cbn [drain Z.add Z.to_nat]. unfold frame_byte.
  unfold is_terminator in Ht. rewrite Ht.
  cbn [nextChar inputbuffer set_inputbuffer set_nextChar].
  replace (Z.of_nat (List.length l) =? 0) with false
    by (symmetry; apply Z.eqb_neq; destruct l; [contradiction|cbn; lia]).
  cbn [negb].
  rewrite poke_in_bounds
    by (cbn [nextChar inputbuffer set_inputbuffer set_nextChar];
        rewrite blit_length; lia).
  cbn [nextChar inputbuffer set_inputbuffer set_nextChar].
  rewrite Nat2Z.id.
  change (store (List.length l) NUL (blit 0 l (inputbuffer w)))
    with (blit (0 + List.length l) [NUL] (blit 0 l (inputbuffer w))).
  rewrite <- blit_app, c_str_blit by lia.
  unfold line_dispatched.
  match goal with
  | |- context [processCommand ?c ?n ?x] =>
      change x with (line_framed l w); destruct (processCommand c n (line_framed l w))
  end.
  reflexivity.
Qed.

Lemma drain_overflow (l : list ascii) (changed : bool) (w : WiThrottleProtocol) :
  framer_ok w ->
  nextChar w = 0 ->
  List.length l = 1023%nat ->
  Forall (fun b => is_terminator b = false) l ->
  drain l changed w
  = Some (changed,
          set_nextChar 0
            (log (println (c_str l))
               (log (print "ERROR LINE TOO LONG: ")
                  (set_inputbuffer (blit 0 (l ++ [NUL]) (inputbuffer w)) w)))).
Proof using.
  intros [Hc Hl] Hn Hlen Hp.
  destruct (exists_last (l := l)) as (l0 & b & ->);
    [intros ->; discriminate|].
  rewrite List.length_app in Hlen. cbn in Hlen.
  apply Forall_app in Hp. destruct Hp as [Hp0 Hb].
  inversion Hb as [|? ? Hb' _]; subst.
  rewrite drain_app, drain_payload by (auto; lia).
  rewrite Hn. cbn [drain Z.add Z.to_nat]. unfold frame_byte.
  unfold is_terminator in Hb'. rewrite Hb'.
  rewrite poke_in_bounds
    by (cbn [nextChar inputbuffer set_inputbuffer set_nextChar];
        rewrite blit_length; lia).
  cbv zeta. cbn [nextChar inputbuffer set_inputbuffer set_nextChar].
  replace (Z.of_nat (List.length l0) + 1 =? 1023) with true
    by (symmetry; apply Z.eqb_eq; lia).
  rewrite poke_in_bounds
    by (cbn [nextChar inputbuffer set_inputbuffer set_nextChar];
        rewrite store_length, blit_length; lia).
  cbn [nextChar inputbuffer set_inputbuffer set_nextChar log set_console].
  rewrite Nat2Z.id.
  replace (Z.to_nat 1023) with (S (List.length l0)) by lia.
  change (store (S (List.length l0)) NUL
            (store (List.length l0) b (blit 0 l0 (inputbuffer w))))
    with (blit (0 + List.length l0) [b; NUL] (blit 0 l0 (inputbuffer w))).
  rewrite <- blit_app.
  replace (l0 ++ [b; NUL])%list with ((l0 ++ [b]) ++ [NUL])%list
    by (now rewrite <- app_assoc).
  rewrite c_str_blit by (rewrite List.length_app; cbn; lia).
  reflexivity.
Qed.

(** *** The invariant from construction on, and the poll as a whole *)

Lemma create_framer_ok (srv : bool) (size : nat) (now : Z) :
  (1024 <= size)%nat -> framer_ok (create srv size now).
Proof using.
  intros H. unfold framer_ok, create, init, resetChangeFlags.
  cbn [nextChar inputbuffer set_heartbeatChanged set_clockChanged
         set_locomotiveSelected set_currentFastTimeRate set_currentFastTime
         set_heartbeatPeriod set_nextChar set_inputbuffer set_stream].
  rewrite !repeat_length. split; lia.
Qed.

Lemma connect_framer_ok (w : WiThrottleProtocol) :
  (1024 <= List.length (inputbuffer w))%nat -> framer_ok (connect w).
Proof using.
  intros H. unfold framer_ok, connect, init, resetChangeFlags.
  cbn [nextChar inputbuffer set_heartbeatChanged set_clockChanged
         set_locomotiveSelected set_currentFastTimeRate set_currentFastTime
         set_heartbeatPeriod set_nextChar set_inputbuffer set_stream].
  rewrite repeat_length. split; lia.
Qed.

Lemma buffer_sendCommand (cmd : string) (w : WiThrottleProtocol) :
  buffer_of (sendCommand cmd w) = buffer_of w.
Proof using.
  unfold sendCommand. destruct (stream w); [destruct (server w)|]; reflexivity.
Qed.

Lemma buffer_checkFastTime (now : Z) (w : WiThrottleProtocol) :
  buffer_of (snd (checkFastTime now w)) = buffer_of w.
Proof using.
  unfold checkFastTime.
  destruct (Chrono.hasPassed _ _ _); [destruct (PrimFloat.eqb _ _)|]; reflexivity.
Qed.

Lemma buffer_checkHeartbeat (now : Z) (w : WiThrottleProtocol) :
  buffer_of (snd (checkHeartbeat now w)) = buffer_of w.
Proof using.
  unfold checkHeartbeat. destruct (_ && _); [|reflexivity].
  cbn [snd]. now rewrite buffer_sendCommand.
Qed.

Lemma framer_ok_buffer (w w' : WiThrottleProtocol) :
  buffer_of w' = buffer_of w -> framer_ok w -> framer_ok w'.
Proof using.
  unfold buffer_of, framer_ok. intros H. injection H as -> ->. auto.
Qed.

(** A poll never stores outside the array, and it keeps the invariant. *)
Lemma check_ok (now : Z) (avail : list ascii) (w : WiThrottleProtocol) :
  framer_ok w ->
  exists r w', check now avail w = Some (r, w') /\ framer_ok w'.
Proof using.
  intros H. unfold check.
  change (stream (resetChangeFlags w)) with (stream w).
  destruct (stream w).
  - pose proof (buffer_checkFastTime now (resetChangeFlags w)) as H1.
    destruct (checkFastTime now (resetChangeFlags w)) as [r1 w1]. cbn [snd] in H1.
    pose proof (buffer_checkHeartbeat now w1) as H2.
    destruct (checkHeartbeat now w1) as [r2 w2]. cbn [snd] in H2.
    assert (Hok : framer_ok w2).
    { apply (framer_ok_buffer w); [|exact H]. now rewrite H2, H1. }
    destruct (drain_ok avail (false || r1 || r2) w2 Hok) as (c & w3 & E & H3 & _).
    now exists c, w3.
  - exists false, (resetChangeFlags w). split; [reflexivity|exact H].
Qed.

(** ** The claims *)

(** C1. The poll does not summarise change: on a connected engine with no
    byte available and the heartbeat disabled, [check] returns [true]
    both when the fast-clock timer is not due and when it fires at rate 0,
    although nothing was sent, no delegate call was made, the fast time
    kept its value and both change flags are clear.  The value comes from
    [checkFastTime], whose result is the constant [true]. *)
Theorem check_idle_poll_returns_true
  (now : Z) (w : WiThrottleProtocol) (out : list string) :
  stream w = Some out ->
  heartbeatPeriod w = 0 ->
  Chrono.elapsed (fastTimeTimer w) now < 1
  \/ PrimFloat.eqb (currentFastTimeRate w) (of_int 0) = true ->
  exists w',
    check now [] w = Some (true, w')
    /\ stream w' = Some out
    /\ delegate w' = delegate w
    /\ currentFastTime w' = currentFastTime w
    /\ clockChanged w' = false
    /\ heartbeatChanged w' = false.
Proof using.
  intros Hs Hp Hidle. unfold check.
  change (stream (resetChangeFlags w)) with (stream w). rewrite Hs.
  unfold checkFastTime.
  change (fastTimeTimer (resetChangeFlags w)) with (fastTimeTimer w).
  destruct (Chrono.hasPassed (fastTimeTimer w) now 1) eqn:E.
  - assert (Hrate : PrimFloat.eqb (currentFastTimeRate w) (of_int 0) = true).
    { destruct Hidle as [H|H]; [|exact H]. apply hasPassed_one in E. lia. }
    cbv zeta.
    change (currentFastTimeRate (set_fastTimeTimer (Chrono.restart now) (resetChangeFlags w)))
      with (currentFastTimeRate w).
    rewrite Hrate.
    rewrite checkHeartbeat_idle by (left; cbn; lia).
    eexists. split; [reflexivity|]. cbn. auto.
  - rewrite checkHeartbeat_idle by (left; cbn; lia).
    eexists. split; [reflexivity|]. cbn. auto.
Qed.

(** The parser of removal notices on any body that starts with [-], has
    the separator and meets a delegate: the entry is trimmed before it is
    compared with ["d\n"] and ["r\n"], so the comparison fails, the entry
    is reported on the console as malformed and dumped, and the delegate
    receives nothing. *)
Lemma removal_entry_always_rejected
  (c : string) (len : Z) (w : WiThrottleProtocol) (l : list DelegateCall) :
  delegate w = Some l ->
  ch c 0 = "-"%char ->
  0 < WString.indexOf PROPERTY_SEPARATOR c ->
  let p := WString.indexOf PROPERTY_SEPARATOR c in
  let entry := WString.trim (WString.substring_from (Z.to_nat (p + 3)) c) in
  processAddRemove c len w
  = dump_entry 0 entry
      (log (printf "entry length is %d\n" [ArgInt (strlen entry)])
         (log (printf "malformed address removal: command is %s\n" [ArgStr entry])
            w))
  /\ delegate (processAddRemove c len w) = Some l.
Proof using.
  intros Hd Hc Hp p entry.
  assert (E : processAddRemove c len w
              = dump_entry 0 entry
                  (log (printf "entry length is %d\n" [ArgInt (strlen entry)])
                     (log (printf "malformed address removal: command is %s\n"
                             [ArgStr entry]) w))).
  { unfold processAddRemove.
    rewrite (has_delegate_attached w l Hd). cbn [negb]. rewrite Hc.
    fold p. replace (p >? 0) with true by (symmetry; apply Z.gtb_lt; exact Hp).
    cbv zeta. fold entry.
    change (Ascii.eqb "-" "+") with false. change (Ascii.eqb "-" "-") with true.
    cbv iota. unfold entry at 1 2. rewrite !trim_not_eol. reflexivity. }
  split; [exact E|].
  rewrite E, delegate_dump_entry. exact Hd.
Qed.







(** C3. While [heartbeatPeriod] is 0 the heartbeat timer sends nothing.
    With a positive period [p], nothing is sent while fewer than [p/2]
    whole seconds, the half period with its fraction dropped, have elapsed
    since the timer's reference point; once that many seconds have
    elapsed, one poll of the timer writes the single line ["*"] (and the
    server role's blank line) and moves the reference point to the current
    time.  An immediate second poll then sends nothing when the period is
    at least 2; with period 1 it sends again. *)
Theorem heartbeat_sent_at_truncated_half_period
  (now : Z) (w : WiThrottleProtocol) :
  (heartbeatPeriod w = 0 -> checkHeartbeat now w = (false, w))
  /\ (0 < heartbeatPeriod w ->
      Chrono.elapsed (heartbeatTimer w) now < heartbeatPeriod w / 2 ->
      checkHeartbeat now w = (false, w))
  /\ (0 < heartbeatPeriod w ->
      heartbeatPeriod w / 2 <= Chrono.elapsed (heartbeatTimer w) now ->
      forall out, stream w = Some out ->
      let w' := snd (checkHeartbeat now w) in
      fst (checkHeartbeat now w) = true
      /\ stream w' = Some (out ++ sent (server w) "*")%list
      /\ heartbeatTimer w' = Chrono.restart now
      /\ heartbeatPeriod w' = heartbeatPeriod w
      /\ (2 <= heartbeatPeriod w -> checkHeartbeat now w' = (false, w'))
      /\ (heartbeatPeriod w = 1 -> fst (checkHeartbeat now w') = true)).
Proof using.
  split; [|split].
  - intros H. apply checkHeartbeat_idle. lia.
  - intros Hp He. apply checkHeartbeat_idle. right. exact He.
  - intros Hp He out Hout w'. subst w'.
    rewrite (checkHeartbeat_due now w Hp He). cbn [fst snd].
    set (w0 := set_heartbeatTimer (Chrono.restart now) w).
    destruct (sendCommand_timers "*" w0) as (Hper & Htim & _ & _).
    assert (Hel : Chrono.elapsed (heartbeatTimer (sendCommand "*" w0)) now = 0).
    { rewrite Htim. subst w0.
      unfold Chrono.elapsed; cbn [heartbeatTimer set_heartbeatTimer
                                  Chrono.restart Chrono.startTime]. lia. }
    assert (Hp0 : heartbeatPeriod (sendCommand "*" w0) = heartbeatPeriod w)
      by (now rewrite Hper).
    split; [reflexivity|].
    split; [now apply (sendCommand_stream "*" w0 out)|].
    split; [now rewrite Htim|]. split; [exact Hp0|]. split.
    + intros H2. apply checkHeartbeat_idle. right. rewrite Hel, Hp0.
      apply Z.div_str_pos. lia.
    + intros H1. rewrite checkHeartbeat_due; [reflexivity| |].
      * rewrite Hp0. lia.
      * rewrite Hel, Hp0, H1. reflexivity.
Qed.

(** With an odd period a heartbeat is sent before half the period has
    elapsed: with period 5 and the reference point at second 0, the poll
    at second 2 sends it, 2 s elapsed against the half period of 2.5 s. *)
Lemma heartbeat_sent_before_half_period :
  ~ (forall (now : Z) (w : WiThrottleProtocol),
       0 < heartbeatPeriod w ->
       2 * Chrono.elapsed (heartbeatTimer w) now < heartbeatPeriod w ->
       checkHeartbeat now w = (false, w)).
Proof using.
  intros H.
  assert (Hp : 0 < heartbeatPeriod odd_heartbeat_engine) by (vm_compute; reflexivity).
  assert (He : 2 * Chrono.elapsed (heartbeatTimer odd_heartbeat_engine) 2
               < heartbeatPeriod odd_heartbeat_engine) by (vm_compute; reflexivity).
  pose proof (f_equal fst (H 2 odd_heartbeat_engine Hp He)) as E.
  assert (Hs : fst (checkHeartbeat 2 odd_heartbeat_engine) = true)
    by (vm_compute; reflexivity).
  rewrite Hs in E. discriminate E.
Qed.

(** C4. [setSpeed] refuses every speed outside 0..126, and every speed
    while no locomotive is selected: it returns [false] and the engine is
    left as it was, so nothing is sent and [currentSpeed] keeps its value.
    For a speed within 0..126 and a selected locomotive it returns [true]
    and [currentSpeed] becomes that speed. *)
Theorem setSpeed_accepts_exactly_valid_requests
  (speed : Z) (w : WiThrottleProtocol) :
  (speed < 0 \/ 126 < speed \/ locomotiveSelected w = false ->
   setSpeed speed w = (false, w))
  /\ (0 <= speed <= 126 -> locomotiveSelected w = true ->
      fst (setSpeed speed w) = true
      /\ currentSpeed (snd (setSpeed speed w)) = speed).
Proof using.
  unfold setSpeed. split.
  - intros [H | [H | H]].
    + replace (speed <? 0) with true by (symmetry; apply Z.ltb_lt; lia).
      reflexivity.
    + replace (speed >? 126) with true by (symmetry; apply Z.gtb_lt; lia).
      now rewrite orb_true_r.
    + rewrite H. now destruct (_ || _).
  - intros Hr Hsel. rewrite Hsel.
    replace (speed <? 0) with false by (symmetry; apply Z.ltb_ge; lia).
    replace (speed >? 126) with false by (symmetry; rewrite Z.gtb_ltb; apply Z.ltb_ge; lia).
    cbn [orb negb].
    destruct (speed =? currentSpeed w) eqn:E; cbn [negb fst snd].
    + apply Z.eqb_eq in E. auto.
    + auto.
Qed.

(** C5. An inbound speed command - a line ["MTA"], then the current
    address or ["*"], the separator, ["V"] and a non-empty rest - makes
    the delegate receive [receivedSpeed v], where [v] is the integer
    parsed from the rest when it lies within 0..126 and 0 otherwise. *)
Theorem inbound_speed_clamped_to_zero
  (pre rest : string) (w : WiThrottleProtocol) (l : list DelegateCall) :
  delegate w = Some l ->
  Ascii.eqb (ch (currentAddress w) 0) "S"
  || Ascii.eqb (ch (currentAddress w) 0) "L" = true ->
  pre = "*" \/ pre = currentAddress w ->
  rest <> "" ->
  let line := "MTA" ++ pre ++ PROPERTY_SEPARATOR ++ "V" ++ rest in
  let parsed := WString.toInt rest in
  let v := if (0 <=? parsed) && (parsed <=? 126) then parsed else 0 in
  delegate (snd (processCommand line (strlen line) w))
  = Some (l ++ [receivedSpeed v])%list.
Proof using.
  intros Hd Ha Hpre Hr line parsed v.
  rewrite (processCommand_clean line (strlen line) w eq_refl).
  set (w1 := set_console _ w).
  assert (Hd1 : delegate w1 = Some l) by exact Hd.
  assert (Ha1 : Ascii.eqb (ch (currentAddress w1) 0) "S"
                || Ascii.eqb (ch (currentAddress w1) 0) "L" = true) by exact Ha.
  unfold line at 1. rewrite dispatch_locomotive_action.
  2:{ assert (Hl : (1 <= String.length pre)%nat).
      { destruct Hpre as [-> | ->]; [cbn; lia|].
        destruct (currentAddress w); [discriminate|cbn; lia]. }
      unfold line, strlen, PROPERTY_SEPARATOR. rewrite !string_length_app.
      destruct rest; [contradiction|]. cbn [String.length]. lia. }
  rewrite processLocomotiveAction_selected
    by (apply valid_address_nonempty; exact Ha1).
  assert (Hb : action_body (pre ++ PROPERTY_SEPARATOR ++ "V" ++ rest) w1
               = String "V" rest).
  { destruct Hpre as [-> | ->].
    - now apply action_body_wildcard.
    - apply (action_body_address ("V" ++ rest) w1). }
  rewrite Hb, strlen_pos. cbn [snd].
  change (locomotiveSwitch (String "V" rest) w1) with (processSpeed (String "V" rest) w1).
  rewrite (processSpeed_attached rest w1 l Hd1 Hr).
  now apply delegate_call.
Qed.

(** C6. On an engine whose stream is attached, [addLocomotive] succeeds
    exactly when the address begins with [S] or [L]: it then writes the
    command ["MT+" ++ address ++ "<;>" ++ address], makes [address] the
    current address and marks a locomotive selected; for any other address
    (the empty one included) it returns [false] and the engine is left as
    it was. *)
Theorem addLocomotive_selects_iff_prefix_valid
  (address : string) (w : WiThrottleProtocol) (out : list string) :
  stream w = Some out ->
  let valid := Ascii.eqb (ch address 0) "S" || Ascii.eqb (ch address 0) "L" in
  (fst (addLocomotive address w) = true <-> valid = true)
  /\ (valid = true ->
      stream (snd (addLocomotive address w))
      = Some (out ++ sent (server w) ("MT+" ++ address ++ "<;>" ++ address))%list
      /\ currentAddress (snd (addLocomotive address w)) = address
      /\ locomotiveSelected (snd (addLocomotive address w)) = true)
  /\ (valid = false -> addLocomotive address w = (false, w)).
Proof using.
  intros Hout valid. unfold addLocomotive, WString.charAt. fold valid.
  destruct valid; cbn [fst snd].
  - split; [split; reflexivity|]. split; [|discriminate]. intros _.
    split; [|split; reflexivity].
    cbn [stream set_locomotiveSelected set_currentAddress].
    now apply sendCommand_stream.
  - split; [split; discriminate|]. split; [discriminate|reflexivity].
Qed.

(** C7. From any state in which the cursor is below the line limit and
    the array holds at least 1024 bytes, and for every sequence of bytes:
    every store the framer makes falls inside the array and the cursor
    stays below the limit (1); 1023 bytes without a terminator, starting
    at cursor 0, are dropped - nothing is dispatched, the overflow is
    reported on the console and the cursor is back at 0 (2); and whatever
    came before, once a terminator has passed the cursor is 0 and the
    next line [l] that ends at a terminator is handed to
    [processCommand] as the string [l] with the length of [l] (3). *)
Theorem framer_bounded_and_recovers
  (changed : bool) (w : WiThrottleProtocol) :
  framer_ok w ->
  (forall avail, exists changed' w',
      drain avail changed w = Some (changed', w') /\ framer_ok w')
  /\ (nextChar w = 0 ->
      forall l, List.length l = 1023%nat ->
      Forall (fun b => is_terminator b = false) l ->
      drain l changed w
      = Some (changed,
              set_nextChar 0
                (log (println (c_str l))
                   (log (print "ERROR LINE TOO LONG: ")
                      (set_inputbuffer (blit 0 (l ++ [NUL]) (inputbuffer w)) w)))))
  /\ (forall pre t l t',
      is_terminator t = true -> is_terminator t' = true ->
      l <> [] -> (List.length l < 1023)%nat ->
      Forall (fun b => is_terminator b = false) l ->
      exists changed1 w1,
        drain (pre ++ [t]) changed w = Some (changed1, w1)
        /\ nextChar w1 = 0
        /\ drain (pre ++ t :: l ++ [t']) changed w
           = line_dispatched l changed1 w1).
Proof using.
  intros Hok. split; [|split].
  - intros avail. destruct (drain_ok avail changed w Hok) as (c1 & w1 & E & H1 & _).
    now exists c1, w1.
  - intros Hn l Hlen Hp. now apply drain_overflow.
  - intros pre t l t' Ht Ht' Hne Hlen Hp.
    destruct (drain_ok (pre ++ [t]) changed w Hok) as (c1 & w1 & E & H1 & _).
    exists c1, w1. split; [exact E|].
    assert (Hn : nextChar w1 = 0).
    { rewrite drain_app in E.
      destruct (drain pre changed w) as [[c0 w0]|]; [|discriminate].
      cbn [drain] in E.
      destruct (frame_byte t c0 w0) as [[c2 w2]|] eqn:F; [|discriminate].
      inversion E; subst. now apply (frame_byte_terminator t c0 c1 w0 w1). }
    split; [exact Hn|].
    replace (pre ++ t :: l ++ [t'])%list with ((pre ++ [t]) ++ (l ++ [t']))%list
      by (now rewrite <- app_assoc).
    rewrite drain_app, E. now apply drain_line.
Qed.

(** C8 (as amended). With a current address, a leading current address
    or ["*"], each with the separator, is removed from the remainder when
    it is there, and the sub-action is chosen by the first character of
    what is left - also when nothing was removed.  A remainder that begins
    with neither prefix reaches the delegate only if its own first
    character is [F], [V], [s] or [R]; otherwise no delegate call is made
    and the direction is kept. *)
Theorem locomotive_action_prefix_optional
  (c : string) (len : Z) (w : WiThrottleProtocol) :
  currentAddress w <> "" ->
  (action_body c w <> "" ->
   processLocomotiveAction c len w = (true, locomotiveSwitch (action_body c w) w))
  /\ (WString.startsWith c (currentAddress w ++ PROPERTY_SEPARATOR) = false ->
      WString.startsWith c ("*" ++ PROPERTY_SEPARATOR) = false ->
      action_body c w = c
      /\ (is_action (ch c 0) = false ->
          delegate (snd (processLocomotiveAction c len w)) = delegate w
          /\ currentDirection (snd (processLocomotiveAction c len w))
             = currentDirection w)).
Proof using.
  intros Ha. rewrite (processLocomotiveAction_selected c len w Ha). split.
  - intros Hb. destruct (action_body c w) as [|a r]; [contradiction|].
    now rewrite strlen_pos.
  - intros H1 H2.
    assert (Hb : action_body c w = c) by (unfold action_body; now rewrite H1, H2).
    split; [exact Hb|]. rewrite Hb. intros Hact.
    destruct (strlen c >? 0); [|split; reflexivity].
    cbn [snd]. unfold locomotiveSwitch, WString.charAt.
    unfold is_action in Hact.
    destruct (Ascii.eqb (ch c 0) "F"); [discriminate|].
    destruct (Ascii.eqb (ch c 0) "V"); [discriminate|].
    destruct (Ascii.eqb (ch c 0) "s"); [discriminate|].
    destruct (Ascii.eqb (ch c 0) "R"); [discriminate|].
    split; reflexivity.
Qed.

(** C8, the claim as stated: a remainder that begins with neither prefix
    produces no event.  It fails on ["V12<;>00"], the remainder of the
    line ["MTAV12<;>00"], with ["S123"] selected: the delegate receives
    [receivedSpeed 12]. *)
Lemma unprefixed_remainder_still_processed :
  ~ (forall (c : string) (len : Z) (w : WiThrottleProtocol),
       currentAddress w <> "" ->
       WString.startsWith c (currentAddress w ++ PROPERTY_SEPARATOR) = false ->
       WString.startsWith c ("*" ++ PROPERTY_SEPARATOR) = false ->
       delegate (snd (processLocomotiveAction c len w)) = delegate w).
Proof using.
  intros H.
  specialize (H "V12<;>00" 8 selected_engine).
  assert (E : delegate (snd (processLocomotiveAction "V12<;>00" 8 selected_engine))
              = Some [receivedSpeed 12]) by (vm_compute; reflexivity).
  rewrite E in H.
  assert (D : delegate selected_engine = Some []) by (vm_compute; reflexivity).
  rewrite D in H.
  discriminate H; [discriminate | reflexivity | reflexivity].
Qed.

(** C9. After a successful [setSpeed v], an immediately repeated
    [setSpeed v] returns [true] and leaves the engine as it is: no command
    is written.  A successful call whose value differs from the cached
    [currentSpeed] puts exactly one command on the stream, the line
    ["MTA*<;>V" ++ v] (followed, in the server role, by the blank line that
    ends every command there). *)
Theorem setSpeed_writes_once_per_new_value
  (v : Z) (w w1 : WiThrottleProtocol) :
  setSpeed v w = (true, w1) ->
  setSpeed v w1 = (true, w1)
  /\ (forall out, stream w = Some out -> v <> currentSpeed w ->
      stream w1 = Some (out ++ sent (server w) ("MTA*<;>V" ++ WString.ofInt v))%list)
  /\ (v = currentSpeed w -> w1 = w).
Proof using.
  unfold setSpeed at 1.
  destruct ((v <? 0) || (v >? 126)) eqn:Hr; [discriminate|].
  destruct (locomotiveSelected w) eqn:Hsel; cbn [negb]; [|discriminate].
  destruct (v =? currentSpeed w) eqn:E; cbn [negb]; intros H; inversion H; subst; clear H.
  - apply Z.eqb_eq in E. repeat split.
    + unfold setSpeed. rewrite Hr, Hsel. cbn [negb].
      now replace (v =? currentSpeed w1) with true by (symmetry; now apply Z.eqb_eq).
    + intros; contradiction.
  - apply Z.eqb_neq in E. repeat split.
    + unfold setSpeed. rewrite Hr.
      cbn [locomotiveSelected currentSpeed set_currentSpeed].
      match goal with
      | |- context [sendCommand ?c w] =>
          destruct (sendCommand_session c w) as (_ & Hs & _)
      end.
      rewrite Hs, Hsel, Z.eqb_refl. reflexivity.
    + intros out Hout _. cbn [stream set_currentSpeed].
      now apply sendCommand_stream.
    + intros; contradiction.
Qed.

(** C10. The dispatcher sees the pointer the loop has advanced but the
    length its caller passed: a line of [n] markers followed by [c] is
    dispatched as [c] with the length of the whole line.  So the marker
    followed by ["PPA"], 17 bytes in all, passes the track-power rule's
    test [len > 3] and reaches the delegate, which ["PPA"] alone, of
    length 3, does not. *)
Theorem dispatch_length_ignores_stripping
  (n : nat) (c : string) (len : Z) (w : WiThrottleProtocol)
  (l : list DelegateCall) :
  String.prefix ignoreThisGarbage c = false ->
  delegate w = Some l ->
  processCommand (garbage_times n ++ c) len w
  = dispatch c len (set_console (stripped_console n c w) w)
  /\ delegate (snd (processCommand (ignoreThisGarbage ++ "PPA") 17 w))
     = Some (l ++ [receivedTrackPower PowerUnknown])%list
  /\ delegate (snd (processCommand "PPA" 3 w)) = Some l.
Proof using.
  intros Hc Hd. split; [now apply processCommand_strips|]. split.
  - change (ignoreThisGarbage ++ "PPA") with (garbage_times 1 ++ "PPA").
    rewrite (processCommand_strips 1 "PPA" 17 w eq_refl).
    unfold dispatch. cbn [Z.gtb Z.compare andb ch String.get Ascii.eqb Bool.eqb
                            Pos.compare Pos.compare_cont].
    cbn [snd]. unfold processTrackPower, has_delegate. cbn [delegate set_console].
    rewrite Hd. cbn. unfold call. cbn. now rewrite Hd.
  - rewrite (processCommand_clean "PPA" 3 w eq_refl).
    cbn. exact Hd.
Qed.

(** ** Further properties *)

(** *** Decimal rendering read back *)

Lemma small_numbers_read_back (v : Z) :
  0 <= v <= 126 ->
  WString.toInt (WString.ofInt v) = v
  /\ WString.ofInt v <> ""
  /\ (v = 0 -> WString.ofInt v = "0").
Proof using.
  intros H.
  assert (A : forallb
                (fun n => (WString.toInt (WString.ofInt (Z.of_nat n)) =? Z.of_nat n)
                          && negb (String.eqb (WString.ofInt (Z.of_nat n)) ""))
                (seq 0 127) = true) by (vm_compute; reflexivity).
  rewrite forallb_forall in A.
  specialize (A (Z.to_nat v)). rewrite Z2Nat.id in A by lia.
  assert (I : In (Z.to_nat v) (seq 0 127)) by (apply in_seq; lia).
  apply A in I. apply andb_true_iff in I. destruct I as [I1 I2].
  apply Z.eqb_eq in I1. apply negb_true_iff, String.eqb_neq in I2.
  split; [exact I1|]. split; [exact I2|]. intros ->. reflexivity.
Qed.

(** *** An action line, up to the switch *)

Lemma inbound_action (pre body : string) (w : WiThrottleProtocol) :
  valid_address (currentAddress w) = true ->
  pre = "*" \/ pre = currentAddress w ->
  body <> "" ->
  8 < strlen ("MTA" ++ pre ++ PROPERTY_SEPARATOR ++ body) ->
  processCommand ("MTA" ++ pre ++ PROPERTY_SEPARATOR ++ body)
    (strlen ("MTA" ++ pre ++ PROPERTY_SEPARATOR ++ body)) w
  = (true,
     locomotiveSwitch body
       (set_console
          (stripped_console 0 ("MTA" ++ pre ++ PROPERTY_SEPARATOR ++ body) w) w)).
Proof using.
  intros Ha Hpre Hb Hlen.
  set (line := "MTA" ++ pre ++ PROPERTY_SEPARATOR ++ body) in *.
  rewrite (processCommand_clean line (strlen line) w eq_refl).
  set (w1 := set_console _ w).
  assert (Ha1 : Ascii.eqb (ch (currentAddress w1) 0) "S"
                || Ascii.eqb (ch (currentAddress w1) 0) "L" = true) by exact Ha.
  unfold line at 1. rewrite dispatch_locomotive_action by exact Hlen.
  rewrite processLocomotiveAction_selected
    by (apply valid_address_nonempty; exact Ha1).
  assert (E : action_body (pre ++ PROPERTY_SEPARATOR ++ body) w1 = body).
  { destruct Hpre as [-> | ->].
    - now apply action_body_wildcard.
    - apply (action_body_address body w1). }
  rewrite E. destruct body as [|a r]; [contradiction|].
  now rewrite strlen_pos.
Qed.


(** *** The direction parser *)


Lemma processDirection_ignored (s : string) (w : WiThrottleProtocol) :
  delegate w = None \/ strlen s <> 2 ->
  delegate (processDirection s w) = delegate w
  /\ currentDirection (processDirection s w) = currentDirection w.
Proof using.
  intros H. unfold processDirection. cbv zeta.
  set (w4 := log _ (log _ (log _ (log _ w)))).
  destruct H as [H|H].
  - assert (E : has_delegate w4 = false) by (unfold has_delegate; cbn; now rewrite H).
    rewrite E. split; reflexivity.
  - replace (strlen s =? 2) with false by (symmetry; now apply Z.eqb_neq).
    rewrite andb_false_r. split; reflexivity.
Qed.

(** *** The function-state parser *)

Lemma processFunctionState_attached (a0 b0 : ascii) (num : string)
  (w : WiThrottleProtocol) (l : list DelegateCall) :
  delegate w = Some l ->
  num <> "" ->
  processFunctionState (String a0 (String b0 num)) w
  = if (WString.toInt num mod 256 =? 0) && negb (WString.equals num "0")
    then w
    else call (receivedFunctionState (WString.toInt num mod 256) (Ascii.eqb b0 "1")) w.
Proof using.
  intros Hd Hn. unfold processFunctionState.
  rewrite (has_delegate_attached w l Hd).
  replace (strlen (String a0 (String b0 num)) >=? 3) with true.
  2:{ symmetry. apply Z.geb_le. unfold strlen. destruct num; [contradiction|].
      cbn [String.length]. lia. }
  reflexivity.
Qed.

(** *** Commands written by one engine and read by another *)

(** X1. The speed command is read back: for a speed within 0..126 that
    differs from the cached one, the one line [setSpeed] writes makes an
    engine with a delegate and a current address receive that very speed. *)
Theorem speed_command_read_back
  (v : Z) (a b : WiThrottleProtocol) (out : list string) (l : list DelegateCall) :
  stream a = Some out ->
  locomotiveSelected a = true ->
  0 <= v <= 126 ->
  v <> currentSpeed a ->
  delegate b = Some l ->
  valid_address (currentAddress b) = true ->
  exists cmd,
    stream (snd (setSpeed v a)) = Some (out ++ sent (server a) cmd)%list
    /\ delegate (snd (processCommand cmd (strlen cmd) b))
       = Some (l ++ [receivedSpeed v])%list.
Proof using.
  intros Hout Hsel Hv Hnew Hd Ha.
  destruct (small_numbers_read_back v Hv) as (Hback & Hne & _).
  exists ("MTA" ++ "*" ++ PROPERTY_SEPARATOR ++ "V" ++ WString.ofInt v). split.
  - unfold setSpeed. rewrite Hsel.
    replace (v <? 0) with false by (symmetry; apply Z.ltb_ge; lia).
    replace (v >? 126) with false
      by (symmetry; rewrite Z.gtb_ltb; apply Z.ltb_ge; lia).
    replace (v =? currentSpeed a) with false by (symmetry; now apply Z.eqb_neq).
    cbn [orb negb snd stream set_currentSpeed].
    now apply sendCommand_stream.
  - rewrite inbound_action; auto.
    + cbn [snd]. set (w1 := set_console _ b).
      assert (Hd1 : delegate w1 = Some l) by exact Hd.
      change (locomotiveSwitch ("V" ++ WString.ofInt v) w1)
        with (processSpeed (String "V" (WString.ofInt v)) w1).
      rewrite (processSpeed_attached (WString.ofInt v) w1 l Hd1 Hne).
      rewrite Hback.
      replace (0 <=? v) with true by (symmetry; apply Z.leb_le; lia).
      replace (v <=? 126) with true by (symmetry; apply Z.leb_le; lia).
      now apply delegate_call.
    + discriminate.
    + unfold strlen, PROPERTY_SEPARATOR. cbn [append String.length].
      destruct (WString.ofInt v); [contradiction|]. cbn [String.length]. lia.
Qed.


(** X3. The function command is read back: for a function within 0..28
    the line [setFunction] writes for the current address makes an engine
    with a delegate and the same current address receive that function and
    state. *)
Theorem function_command_read_back
  (f : Z) (pressed : bool) (a b : WiThrottleProtocol) (out : list string)
  (l : list DelegateCall) :
  stream a = Some out ->
  locomotiveSelected a = true ->
  0 <= f <= 28 ->
  delegate b = Some l ->
  valid_address (currentAddress b) = true ->
  currentAddress a = currentAddress b ->
  exists cmd,
    stream (setFunction f pressed a) = Some (out ++ sent (server a) cmd)%list
    /\ delegate (snd (processCommand cmd (strlen cmd) b))
       = Some (l ++ [receivedFunctionState f pressed])%list.
Proof using.
  intros Hout Hsel Hf Hd Ha Hab.
  destruct (small_numbers_read_back f ltac:(lia)) as (Hback & Hne & Hzero).
  set (body := "F" ++ (if pressed then "1" else "0") ++ WString.ofInt f).
  exists ("MTA" ++ currentAddress b ++ PROPERTY_SEPARATOR ++ body). split.
  - unfold setFunction. rewrite Hsel.
    replace (f <? 0) with false by (symmetry; apply Z.ltb_ge; lia).
    replace (f >? 28) with false
      by (symmetry; rewrite Z.gtb_ltb; apply Z.ltb_ge; lia).
    cbn [orb negb]. rewrite Hab.
    replace ((if pressed
              then ("MTA" ++ currentAddress b ++ PROPERTY_SEPARATOR ++ "F") ++ "1"
              else ("MTA" ++ currentAddress b ++ PROPERTY_SEPARATOR ++ "F") ++ "0")
             ++ WString.ofInt f)
      with ("MTA" ++ currentAddress b ++ PROPERTY_SEPARATOR ++ body).
    + now apply sendCommand_stream.
    + unfold body. destruct pressed;
        now rewrite !append_assoc.
  - rewrite inbound_action; auto.
    + cbn [snd]. set (w1 := set_console _ b).
      assert (Hd1 : delegate w1 = Some l) by exact Hd.
      unfold body.
      assert (E : locomotiveSwitch
                    ("F" ++ (if pressed then "1" else "0") ++ WString.ofInt f) w1
                  = call (receivedFunctionState f pressed) w1).
      { assert (Hq : (WString.toInt (WString.ofInt f) mod 256 =? 0)
                     && negb (WString.equals (WString.ofInt f) "0") = false).
        { rewrite Hback. destruct (f =? 0) eqn:E0.
          - apply Z.eqb_eq in E0. rewrite (Hzero E0). now rewrite andb_false_r.
          - rewrite Z.mod_small by lia. now rewrite E0. }
        destruct pressed.
        - change (locomotiveSwitch ("F" ++ "1" ++ WString.ofInt f) w1)
            with (processFunctionState (String "F" (String "1" (WString.ofInt f))) w1).
          rewrite (processFunctionState_attached "F" "1" _ w1 l Hd1 Hne), Hq, Hback.
          now rewrite Z.mod_small by lia.
        - change (locomotiveSwitch ("F" ++ "0" ++ WString.ofInt f) w1)
            with (processFunctionState (String "F" (String "0" (WString.ofInt f))) w1).
          rewrite (processFunctionState_attached "F" "0" _ w1 l Hd1 Hne), Hq, Hback.
          now rewrite Z.mod_small by lia. }
      rewrite E. now apply delegate_call.
    + unfold body. discriminate.
    + unfold strlen, body, PROPERTY_SEPARATOR. rewrite !string_length_app.
      destruct (currentAddress b); [discriminate|].
      destruct (WString.ofInt f); [contradiction|].
      destruct pressed; cbn [String.length]; lia.
Qed.

(** *** How the outbound operations compose *)

Lemma setSpeed_cached (w : WiThrottleProtocol) :
  locomotiveSelected w = true ->
  0 <= currentSpeed w <= 126 ->
  setSpeed (currentSpeed w) w = (true, w).
Proof using.
  intros Hsel Hr. unfold setSpeed. rewrite Hsel, Z.eqb_refl.
  replace (currentSpeed w <? 0) with false by (symmetry; apply Z.ltb_ge; lia).
  now replace (currentSpeed w >? 126) with false
    by (symmetry; rewrite Z.gtb_ltb; apply Z.ltb_ge; lia).
Qed.

(** X4. The emergency stop is written whether or not a locomotive is
    selected, and it leaves the cached speed as it was: a [setSpeed] with
    the cached speed right after the stop is accepted and writes nothing. *)
Theorem emergency_stop_keeps_cached_speed
  (w : WiThrottleProtocol) (out : list string) :
  stream w = Some out ->
  stream (emergencyStop w) = Some (out ++ sent (server w) "MTA*<;>X")%list
  /\ currentSpeed (emergencyStop w) = currentSpeed w
  /\ (locomotiveSelected w = true -> 0 <= currentSpeed w <= 126 ->
      setSpeed (currentSpeed w) (emergencyStop w) = (true, emergencyStop w)).
Proof using.
  intros Hout. unfold emergencyStop.
  set (cmd := "MTA*" ++ PROPERTY_SEPARATOR ++ "X").
  destruct (sendCommand_session cmd w) as (_ & Hsel & Hspeed & _).
  split; [now apply sendCommand_stream|]. split; [exact Hspeed|].
  intros Hs Hr. rewrite <- Hspeed. apply setSpeed_cached; now rewrite ?Hsel, ?Hspeed.
Qed.


(** X6. A steal writes the release before the selection.  For an address
    that begins with [S] or [L] both commands go out, in that order, and the
    address ends selected; for any other address the release has already
    been written and the selection cleared when the steal fails. *)
Theorem steal_releases_before_selecting
  (address : string) (w : WiThrottleProtocol) (out : list string) :
  stream w = Some out ->
  let release := sent (server w) ("MT-" ++ address ++ "<;>r") in
  let select := sent (server w) ("MT+" ++ address ++ "<;>" ++ address) in
  let w' := snd (stealLocomotive address w) in
  (valid_address address = true ->
   fst (stealLocomotive address w) = true
   /\ stream w' = Some ((out ++ release) ++ select)%list
   /\ currentAddress w' = address
   /\ locomotiveSelected w' = true)
  /\ (valid_address address = false ->
      fst (stealLocomotive address w) = false
      /\ stream w' = Some (out ++ release)%list
      /\ currentAddress w' = currentAddress w
      /\ locomotiveSelected w' = false).
Proof using.
  intros Hout release select w'. subst w' release select.
  unfold stealLocomotive, releaseLocomotive.
  set (cmd := "MT-" ++ address ++ PROPERTY_SEPARATOR ++ "r").
  set (w1 := set_locomotiveSelected false (sendCommand cmd w)).
  assert (S1 : stream w1 = Some (out ++ sent (server w) cmd)%list)
    by (unfold w1; cbn [stream set_locomotiveSelected]; now apply sendCommand_stream).
  assert (V1 : server w1 = server w)
    by (unfold w1; cbn [server set_locomotiveSelected];
        now destruct (sendCommand_timers cmd w) as (_ & _ & _ & ->)).
  assert (A1 : currentAddress w1 = currentAddress w)
    by (unfold w1; cbn [currentAddress set_locomotiveSelected];
        now destruct (sendCommand_session cmd w) as (-> & _)).
  unfold addLocomotive, valid_address, WString.charAt.
  destruct (Ascii.eqb (ch address 0) "S" || Ascii.eqb (ch address 0) "L");
    cbn [fst snd]; (split; [|discriminate]) || (split; [discriminate|]); intros _.
  - split; [reflexivity|].
    cbn [stream currentAddress locomotiveSelected set_locomotiveSelected
           set_currentAddress].
    split; [|split; reflexivity].
    rewrite (sendCommand_stream _ w1 _ S1), V1. reflexivity.
  - split; [reflexivity|]. split; [exact S1|]. split; [exact A1|reflexivity].
Qed.

Lemma connect_resets (w : WiThrottleProtocol) :
  nextChar (connect w) = 0
  /\ heartbeatPeriod (connect w) = 0
  /\ locomotiveSelected (connect w) = false
  /\ stream (connect w) = Some []
  /\ server (connect w) = server w
  /\ currentAddress (connect w) = currentAddress w
  /\ currentDirection (connect w) = currentDirection w
  /\ currentSpeed (connect w) = currentSpeed w.
Proof using.
  unfold connect, init, resetChangeFlags. cbn. repeat split.
Qed.

Lemma select_keeps_cached_speed (address : string) (w0 : WiThrottleProtocol)
  (out : list string) :
  valid_address address = true ->
  0 <= currentSpeed w0 <= 126 ->
  stream w0 = Some out ->
  stream (snd (addLocomotive address w0))
  = Some (out ++ sent (server w0) ("MT+" ++ address ++ "<;>" ++ address))%list
  /\ setSpeed (currentSpeed w0) (snd (addLocomotive address w0))
     = (true, snd (addLocomotive address w0)).
Proof using.
  intros Ha Hr Hout.
  assert (E : addLocomotive address w0
              = (true,
                 set_locomotiveSelected true
                   (set_currentAddress address
                      (sendCommand ("MT+" ++ address ++ PROPERTY_SEPARATOR ++ address)
                         w0)))).
  { unfold addLocomotive, WString.charAt. unfold valid_address in Ha. now rewrite Ha. }
  rewrite E. cbn [snd].
  set (cmd := "MT+" ++ address ++ PROPERTY_SEPARATOR ++ address).
  set (w1 := set_locomotiveSelected true (set_currentAddress address (sendCommand cmd w0))).
  assert (Hspeed : currentSpeed w1 = currentSpeed w0)
    by (destruct (sendCommand_session cmd w0) as (_ & _ & Hs & _); exact Hs).
  split.
  - exact (sendCommand_stream cmd w0 out Hout).
  - rewrite <- Hspeed. apply setSpeed_cached; [reflexivity|]. now rewrite Hspeed.
Qed.

(** X7. Connecting resets the framer, the heartbeat period and the
    selection flag, but not the current address, the direction or the cached
    speed: after a reconnect and a new selection, a [setSpeed] with the
    speed cached before the reconnect is accepted and writes nothing. *)
Theorem reconnect_keeps_cached_speed
  (address : string) (w : WiThrottleProtocol) :
  valid_address address = true ->
  0 <= currentSpeed w <= 126 ->
  (nextChar (connect w) = 0 /\ heartbeatPeriod (connect w) = 0
   /\ locomotiveSelected (connect w) = false /\ stream (connect w) = Some [])
  /\ (currentAddress (connect w) = currentAddress w
      /\ currentDirection (connect w) = currentDirection w
      /\ currentSpeed (connect w) = currentSpeed w)
  /\ stream (snd (addLocomotive address (connect w)))
     = Some (sent (server w) ("MT+" ++ address ++ "<;>" ++ address))
  /\ setSpeed (currentSpeed w) (snd (addLocomotive address (connect w)))
     = (true, snd (addLocomotive address (connect w))).
Proof using.
  intros Ha Hr.
  destruct (connect_resets w) as (C1 & C2 & C3 & C4 & C5 & C6 & C7 & C8).
  split; [repeat split; assumption|]. split; [repeat split; assumption|].
  rewrite <- C8 in Hr.
  destruct (select_keeps_cached_speed address (connect w) [] Ha Hr C4) as (S1 & S2).
  rewrite C5 in S1. rewrite C8 in S2. split; [exact S1|exact S2].
Qed.

(** X8. Without a stream the engine reads nothing and writes nothing: a
    poll returns [false] and only clears the two change flags, whatever
    bytes are offered, and [sendCommand] does nothing; yet the selection is
    still updated, so [addLocomotive] reports success for a command that
    was never written. *)
Theorem detached_engine_reads_and_writes_nothing
  (now : Z) (avail : list ascii) (w : WiThrottleProtocol) :
  stream w = None ->
  check now avail w = Some (false, resetChangeFlags w)
  /\ (forall cmd, sendCommand cmd w = w)
  /\ (forall address, valid_address address = true ->
      fst (addLocomotive address w) = true
      /\ stream (snd (addLocomotive address w)) = None
      /\ currentAddress (snd (addLocomotive address w)) = address
      /\ locomotiveSelected (snd (addLocomotive address w)) = true).
Proof using.
  intros Hs. split; [|split].
  - unfold check. change (stream (resetChangeFlags w)) with (stream w).
    now rewrite Hs.
  - intros cmd. now apply sendCommand_detached.
  - intros address Ha. unfold addLocomotive, WString.charAt.
    unfold valid_address in Ha. rewrite Ha. cbn [fst snd].
    rewrite sendCommand_detached by exact Hs.
    repeat split. exact Hs.
Qed.

(** *** What inbound lines never touch *)

Ltac kept := cbv zeta; unfold call, log; branches; reflexivity.

Lemma view_processFunctionState (s : string) (w : WiThrottleProtocol) :
  outbound_view (processFunctionState s w) = outbound_view w.
Proof using. unfold processFunctionState. kept. Qed.

Lemma view_processSpeed (s : string) (w : WiThrottleProtocol) :
  outbound_view (processSpeed s w) = outbound_view w.
Proof using. unfold processSpeed. kept. Qed.

Lemma view_processSpeedSteps (s : string) (w : WiThrottleProtocol) :
  outbound_view (processSpeedSteps s w) = outbound_view w.
Proof using. unfold processSpeedSteps. kept. Qed.

Lemma view_processDirection (s : string) (w : WiThrottleProtocol) :
  outbound_view (processDirection s w) = outbound_view w.
Proof using. unfold processDirection. kept. Qed.

Lemma view_locomotiveSwitch (s : string) (w : WiThrottleProtocol) :
  outbound_view (locomotiveSwitch s w) = outbound_view w.
Proof using.
  unfold locomotiveSwitch. cbv zeta.
  repeat match goal with |- context [if ?b then _ else _] => destruct b end;
    auto using view_processFunctionState, view_processSpeed,
      view_processSpeedSteps, view_processDirection.
Qed.

Lemma view_processLocomotiveAction (c : string) (len : Z) (w : WiThrottleProtocol) :
  outbound_view (snd (processLocomotiveAction c len w)) = outbound_view w.
Proof using.
  unfold processLocomotiveAction. cbv zeta.
  destruct (WString.equals _ _); [reflexivity|].
  destruct (strlen _ >? 0); [|reflexivity].
  apply view_locomotiveSwitch.
Qed.

Lemma view_processHeartbeat (c : string) (len : Z) (w : WiThrottleProtocol) :
  outbound_view (snd (processHeartbeat c len w)) = outbound_view w.
Proof using. unfold processHeartbeat. kept. Qed.

Lemma view_processProtocolVersion (c : string) (len : Z) (w : WiThrottleProtocol) :
  outbound_view (processProtocolVersion c len w) = outbound_view w.
Proof using. unfold processProtocolVersion. kept. Qed.

Lemma view_processWebPort (c : string) (len : Z) (w : WiThrottleProtocol) :
  outbound_view (processWebPort c len w) = outbound_view w.
Proof using. unfold processWebPort. kept. Qed.

Lemma view_processTrackPower (c : string) (len : Z) (w : WiThrottleProtocol) :
  outbound_view (processTrackPower c len w) = outbound_view w.
Proof using. unfold processTrackPower. kept. Qed.

Lemma view_dump_entry (entry : string) (i : Z) (w : WiThrottleProtocol) :
  outbound_view (dump_entry i entry w) = outbound_view w.
Proof using.
  revert i w. induction entry as [|a r IH]; intros i w; cbn; [reflexivity|].
  now rewrite IH.
Qed.

Lemma view_processAddRemove (c : string) (len : Z) (w : WiThrottleProtocol) :
  outbound_view (processAddRemove c len w) = outbound_view w.
Proof using.
  unfold processAddRemove. cbv zeta. unfold call, log.
  branches; rewrite ?view_dump_entry; reflexivity.
Qed.

Lemma view_processStealNeeded (c : string) (len : Z) (w : WiThrottleProtocol) :
  outbound_view (processStealNeeded c len w) = outbound_view w.
Proof using. unfold processStealNeeded. kept. Qed.

Lemma view_setCurrentFastTime (s : string) (w : WiThrottleProtocol) :
  outbound_view (setCurrentFastTime s w) = outbound_view w.
Proof using. unfold setCurrentFastTime. kept. Qed.

Lemma view_processFastTime (c : string) (len : Z) (w : WiThrottleProtocol) :
  outbound_view (snd (processFastTime c len w)) = outbound_view w.
Proof using.
  unfold processFastTime. cbv zeta.
  destruct (_ >? 0); cbn [snd]; [|apply view_setCurrentFastTime].
  exact (view_setCurrentFastTime _ w).
Qed.

Lemma view_strip_garbage (fuel : nat) :
  forall (c : string) (changed : bool) (w : WiThrottleProtocol),
  outbound_view (snd (strip_garbage fuel c changed w)) = outbound_view w.
Proof using.
  induction fuel as [|fuel IH]; intros c changed w; cbn [strip_garbage];
    [reflexivity|].
  destruct (String.prefix _ _); [|reflexivity]. now rewrite IH.
Qed.

Lemma view_dispatch (c : string) (len : Z) (w : WiThrottleProtocol) :
  outbound_view (snd (dispatch c len w)) = outbound_view w.
Proof using.
  unfold dispatch.
  repeat match goal with |- context [if ?b then _ else _] => destruct b end;
    cbn [snd];
    auto using view_processFastTime, view_processTrackPower,
      view_processHeartbeat, view_processProtocolVersion,
      view_processWebPort, view_processStealNeeded,
      view_processAddRemove, view_processLocomotiveAction.
Qed.

Lemma view_processCommand (c : string) (len : Z) (w : WiThrottleProtocol) :
  outbound_view (snd (processCommand c len w)) = outbound_view w.
Proof using.
  unfold processCommand. cbv zeta.
  pose proof (view_strip_garbage (S (String.length c)) c false
                (log (println c) (log (print "<== ") w))) as H.
  destruct (strip_garbage _ _ _ _) as [[c' changed] w'].
  cbn [snd] in H. rewrite view_dispatch.
  destruct changed; exact H.
Qed.

(** X9. No inbound line, whatever its text and length, writes to the
    stream or changes the current address, the selection flag, the cached
    speed, the speed steps, the timers or the input buffer.  In particular a
    speed or a speed-step count reported by the server is passed to the
    delegate only: [getSpeed] keeps returning the last speed set locally. *)
Theorem inbound_lines_leave_outbound_state
  (c : string) (len : Z) (w : WiThrottleProtocol) :
  let w' := snd (processCommand c len w) in
  stream w' = stream w
  /\ currentAddress w' = currentAddress w
  /\ locomotiveSelected w' = locomotiveSelected w
  /\ getSpeed w' = getSpeed w
  /\ speedSteps w' = speedSteps w
  /\ heartbeatTimer w' = heartbeatTimer w
  /\ fastTimeTimer w' = fastTimeTimer w
  /\ inputbuffer w' = inputbuffer w
  /\ nextChar w' = nextChar w.
Proof using.
  intros w'. pose proof (view_processCommand c len w) as H. fold w' in H.
  unfold outbound_view in H. unfold getSpeed.
  injection H as H1 H2 H3 H4 H5 H6 H7 H8 H9 H10.
  repeat split; assumption.
Qed.

(** *** Terminators and whole lines *)

Lemma set_nextChar_same (w : WiThrottleProtocol) :
  nextChar w = 0 -> set_nextChar 0 w = w.
Proof using. intros H. destruct w. cbn in *. now subst. Qed.

(** X10. A terminator that follows a terminator does nothing: the line
    feed after a carriage return, or the second of two newlines, dispatches
    no second line and leaves the engine as the first one left it. *)
Theorem repeated_terminator_ignored
  (pre : list ascii) (t1 t2 : ascii) (changed : bool) (w : WiThrottleProtocol) :
  is_terminator t1 = true ->
  is_terminator t2 = true ->
  drain (pre ++ [t1; t2]) changed w = drain (pre ++ [t1]) changed w.
Proof using.
  intros H1 H2.
  replace (pre ++ [t1; t2])%list with ((pre ++ [t1]) ++ [t2])%list
    by (now rewrite <- app_assoc).
  rewrite drain_app.
  destruct (drain (pre ++ [t1]) changed w) as [[c1 w1]|] eqn:E; [|reflexivity].
  assert (Hn : nextChar w1 = 0).
  { rewrite drain_app in E.
    destruct (drain pre changed w) as [[c0 w0]|]; [|discriminate].
    cbn [drain] in E.
    destruct (frame_byte t1 c0 w0) as [[c2 w2]|] eqn:F; [|discriminate].
    inversion E; subst. now apply (frame_byte_terminator t1 c0 c1 w0 w1). }
  cbn [drain]. unfold frame_byte. unfold is_terminator in H2. rewrite H2, Hn.
  cbn [Z.eqb negb]. now rewrite set_nextChar_same.
Qed.

Lemma c_str_of_string (s : string) :
  occurs NUL s = false -> c_str (list_ascii_of_string s) = s.
Proof using.
  induction s as [|a r IH]; cbn; [reflexivity|].
  intros H. apply orb_false_iff in H. destruct H as [H1 H2].
  rewrite H1. now rewrite IH.
Qed.

Lemma payload_of_string (s : string) :
  occurs CR s = false -> occurs NEWLINE s = false ->
  Forall (fun b => is_terminator b = false) (list_ascii_of_string s).
Proof using.
  induction s as [|a r IH]; cbn; [constructor|].
  intros H1 H2. apply orb_false_iff in H1, H2.
  destruct H1 as [H1 H1'], H2 as [H2 H2'].
  constructor; [|now apply IH].
  unfold is_terminator. now rewrite H1, H2.
Qed.

Lemma length_of_string (s : string) :
  List.length (list_ascii_of_string s) = String.length s.
Proof using. induction s as [|a r IH]; cbn; [reflexivity|now rewrite IH]. Qed.

(** X11. A line written with [println] is dispatched once, as written: a
    poll of a connected engine whose cursor is at 0, given the bytes of a
    non-empty line shorter than 1023 (without NUL, carriage return or line
    feed) followed by carriage return and line feed, runs the two timers and
    then [processCommand] on exactly that line with its length; the line
    feed dispatches nothing more, and the cursor ends at 0. *)
Theorem println_line_dispatched_once
  (now : Z) (line : string) (w : WiThrottleProtocol) (out : list string) :
  stream w = Some out ->
  framer_ok w ->
  nextChar w = 0 ->
  line <> "" ->
  strlen line < 1023 ->
  occurs NUL line = false ->
  occurs CR line = false ->
  occurs NEWLINE line = false ->
  let w2 := snd (checkHeartbeat now (snd (checkFastTime now (resetChangeFlags w)))) in
  check now (println_bytes line) w
  = (let (r, w3) := processCommand line (strlen line)
                      (line_framed (list_ascii_of_string line) w2) in
     Some (true, set_nextChar 0 w3)).
Proof using.
  intros Hs Hok Hn Hne Hlen H0 Hcr Hnl w2. unfold check.
  change (stream (resetChangeFlags w)) with (stream w). rewrite Hs.
  pose proof (checkFastTime_true now (resetChangeFlags w)) as Hf.
  pose proof (buffer_checkFastTime now (resetChangeFlags w)) as B1.
  subst w2.
  destruct (checkFastTime now (resetChangeFlags w)) as [r1 w1].
  cbn [fst snd] in *. subst r1.
  pose proof (buffer_checkHeartbeat now w1) as B2.
  destruct (checkHeartbeat now w1) as [r2 w2]. cbn [snd] in *.
  cbn [orb].
  assert (B : buffer_of w2 = buffer_of w) by (now rewrite B2, B1).
  assert (Hok2 : framer_ok w2) by (now apply (framer_ok_buffer w)).
  assert (Hn2 : nextChar w2 = 0)
    by (unfold buffer_of in B; injection B as _ ->; exact Hn).
  unfold println_bytes.
  replace (list_ascii_of_string line ++ [CR; NEWLINE])%list
    with ((list_ascii_of_string line ++ [CR]) ++ [NEWLINE])%list
    by (now rewrite <- app_assoc).
  rewrite drain_app, drain_line; auto.
  - unfold line_dispatched.
    rewrite c_str_of_string by exact H0.
    rewrite length_of_string. fold (strlen line).
    destruct (processCommand line (strlen line) _) as [r w3].
    cbn [orb drain]. reflexivity.
  - destruct line; [contradiction|discriminate].
  - rewrite length_of_string. unfold strlen in Hlen. lia.
  - now apply payload_of_string.
Qed.

Ltac clean_line w :=
  match goal with
  | |- context [processCommand ?c ?n w] =>
      rewrite (processCommand_clean c n w eq_refl)
  end.

(** *** The rules of the dispatcher, one prefix at a time *)


Lemma dispatch_steal (x : string) (len : Z) (w : WiThrottleProtocol) :
  6 < len ->
  dispatch ("MTS" ++ x) len w = (true, processStealNeeded x (len - 3) w).
Proof using.
  intros H. unfold dispatch.
  replace (len >? 3) with true by (symmetry; apply Z.gtb_lt; lia).
  replace (len >? 1) with true by (symmetry; apply Z.gtb_lt; lia).
  replace (len >? 2) with true by (symmetry; apply Z.gtb_lt; lia).
  replace (len >? 6) with true by (symmetry; apply Z.gtb_lt; lia).
  reflexivity.
Qed.


Lemma dispatch_version (x : string) (len : Z) (w : WiThrottleProtocol) :
  2 < len ->
  dispatch ("VN" ++ x) len w = (true, processProtocolVersion x (len - 2) w).
Proof using.
  intros H. unfold dispatch.
  replace (len >? 1) with true by (symmetry; apply Z.gtb_lt; lia).
  replace (len >? 2) with true by (symmetry; apply Z.gtb_lt; lia).
  destruct (len >? 3); reflexivity.
Qed.

Lemma dispatch_web_port (x : string) (len : Z) (w : WiThrottleProtocol) :
  2 < len ->
  dispatch ("PW" ++ x) len w = (true, processWebPort x (len - 2) w).
Proof using.
  intros H. unfold dispatch.
  replace (len >? 1) with true by (symmetry; apply Z.gtb_lt; lia).
  replace (len >? 2) with true by (symmetry; apply Z.gtb_lt; lia).
  destruct (len >? 3); reflexivity.
Qed.

Lemma dispatch_track_power (x : string) (len : Z) (w : WiThrottleProtocol) :
  3 < len ->
  dispatch ("PPA" ++ x) len w = (true, processTrackPower x (len - 3) w).
Proof using.
  intros H. unfold dispatch.
  replace (len >? 3) with true by (symmetry; apply Z.gtb_lt; lia).
  reflexivity.
Qed.

Lemma strlen_cons (a : ascii) (s : string) : strlen (String a s) = 1 + strlen s.
Proof using. unfold strlen. cbn [String.length]. lia. Qed.

Lemma strlen_nonneg (s : string) : 0 <= strlen s.
Proof using. unfold strlen. lia. Qed.

Lemma strlen_nonempty (s : string) : s <> "" -> 1 <= strlen s.
Proof using.
  destruct s; [contradiction|]. intros _. rewrite strlen_cons.
  pose proof (strlen_nonneg s). lia.
Qed.


(** X13. A speed-step line - ["MTA"], the current address or ["*"], the
    separator, ["s"] and a non-empty text - reaches the delegate exactly
    when the integer read from the text is 1, 2, 4, 8 or 16; any other
    count is dropped without a call. *)
Theorem inbound_speed_steps_filtered
  (pre rest : string) (w : WiThrottleProtocol) (l : list DelegateCall) :
  delegate w = Some l ->
  valid_address (currentAddress w) = true ->
  pre = "*" \/ pre = currentAddress w ->
  rest <> "" ->
  let line := "MTA" ++ pre ++ PROPERTY_SEPARATOR ++ "s" ++ rest in
  let steps := WString.toInt rest in
  delegate (snd (processCommand line (strlen line) w))
  = if (steps =? 1) || (steps =? 2) || (steps =? 4) || (steps =? 8) || (steps =? 16)
    then Some (l ++ [receivedSpeedSteps steps])%list
    else Some l.
Proof using.
  intros Hd Ha Hpre Hr line steps. subst line.
  rewrite inbound_action; auto; [|discriminate|].
  - cbn [snd]. set (w1 := set_console _ w).
    assert (Hd1 : delegate w1 = Some l) by exact Hd.
    change (locomotiveSwitch ("s" ++ rest) w1)
      with (processSpeedSteps (String "s" rest) w1).
    unfold processSpeedSteps. rewrite (has_delegate_attached w1 l Hd1).
    replace (strlen (String "s" rest) >=? 2) with true
      by (symmetry; apply Z.geb_le; rewrite strlen_cons;
          pose proof (strlen_nonempty rest Hr); lia).
    cbn [andb WString.substring_from advance]. fold steps.
    destruct (steps =? 1), (steps =? 2), (steps =? 4), (steps =? 8), (steps =? 16);
      cbn [negb andb orb]; try exact Hd1; now apply delegate_call.
  - assert (Hl : 1 <= strlen pre).
    { apply strlen_nonempty. destruct Hpre as [-> | ->]; [discriminate|].
      now apply valid_address_nonempty. }
    pose proof (strlen_nonempty rest Hr).
    unfold strlen in *. unfold PROPERTY_SEPARATOR. rewrite !string_length_app.
    cbn [String.length]. lia.
Qed.

(** X14. A function line - ["MTA"], the current address or ["*"], the
    separator, ["F"], one state character and a non-empty number text -
    reports the number read from the text, reduced modulo 256, as pressed
    exactly when the state character is ["1"].  The report is dropped when
    that number is 0 and the text is not literally ["0"]: so ["00"], a text
    without digits and ["256"] are dropped, while ["257"] reports function
    1. *)
Theorem inbound_function_state
  (pre num : string) (b0 : ascii) (w : WiThrottleProtocol) (l : list DelegateCall) :
  delegate w = Some l ->
  valid_address (currentAddress w) = true ->
  pre = "*" \/ pre = currentAddress w ->
  num <> "" ->
  let line := "MTA" ++ pre ++ PROPERTY_SEPARATOR ++ String "F" (String b0 num) in
  let n := WString.toInt num mod 256 in
  delegate (snd (processCommand line (strlen line) w))
  = if (n =? 0) && negb (String.eqb num "0")
    then Some l
    else Some (l ++ [receivedFunctionState n (Ascii.eqb b0 "1")])%list.
Proof using.
  intros Hd Ha Hpre Hn line n. subst line.
  rewrite inbound_action; auto; [|discriminate|].
  - cbn [snd]. set (w1 := set_console _ w).
    assert (Hd1 : delegate w1 = Some l) by exact Hd.
    change (locomotiveSwitch (String "F" (String b0 num)) w1)
      with (processFunctionState (String "F" (String b0 num)) w1).
    rewrite (processFunctionState_attached "F" b0 num w1 l Hd1 Hn).
    fold n. unfold WString.equals.
    destruct ((n =? 0) && negb (String.eqb num "0")); [exact Hd1|].
    now apply delegate_call.
  - assert (Hl : 1 <= strlen pre).
    { apply strlen_nonempty. destruct Hpre as [-> | ->]; [discriminate|].
      now apply valid_address_nonempty. }
    pose proof (strlen_nonempty num Hn).
    unfold strlen in *. unfold PROPERTY_SEPARATOR. rewrite !string_length_app.
    cbn [String.length]. lia.
Qed.

(** *** Without a delegate *)

Ltac deaf H :=
  cbv zeta; unfold has_delegate, call, log;
  cbn [delegate currentDirection set_console set_heartbeatPeriod
         set_heartbeatChanged set_currentDirection set_delegate];
  rewrite ?H; cbn [andb negb]; branches;
  cbn [delegate currentDirection set_console set_heartbeatPeriod
         set_heartbeatChanged set_currentDirection set_delegate];
  rewrite ?H; reflexivity.

Lemma deaf_locomotiveSwitch (s : string) (w : WiThrottleProtocol) :
  delegate w = None ->
  listener_view (locomotiveSwitch s w) = listener_view w.
Proof using.
  intros H. unfold locomotiveSwitch, listener_view, processFunctionState,
    processSpeed, processSpeedSteps, processDirection. deaf H.
Qed.

Lemma deaf_processLocomotiveAction (c : string) (len : Z) (w : WiThrottleProtocol) :
  delegate w = None ->
  listener_view (snd (processLocomotiveAction c len w)) = listener_view w.
Proof using.
  intros H. unfold processLocomotiveAction. cbv zeta.
  destruct (WString.equals _ _); [reflexivity|].
  destruct (strlen _ >? 0); [|reflexivity].
  now apply deaf_locomotiveSwitch.
Qed.

Lemma deaf_setCurrentFastTime (s : string) (w : WiThrottleProtocol) :
  listener_view (setCurrentFastTime s w) = listener_view w.
Proof using. unfold setCurrentFastTime, listener_view, log. cbv zeta. branches; reflexivity. Qed.

Lemma deaf_processFastTime (c : string) (len : Z) (w : WiThrottleProtocol) :
  listener_view (snd (processFastTime c len w)) = listener_view w.
Proof using.
  unfold processFastTime. cbv zeta.
  destruct (_ >? 0); cbn [snd]; [|apply deaf_setCurrentFastTime].
  exact (deaf_setCurrentFastTime _ w).
Qed.

Lemma deaf_strip_garbage (fuel : nat) :
  forall (c : string) (changed : bool) (w : WiThrottleProtocol),
  listener_view (snd (strip_garbage fuel c changed w)) = listener_view w.
Proof using.
  induction fuel as [|fuel IH]; intros c changed w; cbn [strip_garbage];
    [reflexivity|].
  destruct (String.prefix _ _); [|reflexivity]. now rewrite IH.
Qed.

Lemma deaf_processHeartbeat (c : string) (len : Z) (w : WiThrottleProtocol) :
  delegate w = None ->
  listener_view (snd (processHeartbeat c len w)) = listener_view w.
Proof using.
  intros H. unfold processHeartbeat. cbv zeta.
  assert (E : has_delegate
                (set_heartbeatChanged true (set_heartbeatPeriod (WString.toInt c) w))
              = false) by (unfold has_delegate; cbn; now rewrite H).
  rewrite E. destruct (_ >? 0); reflexivity.
Qed.

Lemma deaf_dispatch (c : string) (len : Z) (w : WiThrottleProtocol) :
  delegate w = None ->
  listener_view (snd (dispatch c len w)) = listener_view w.
Proof using.
  intros H. unfold dispatch.
  repeat match goal with |- context [if ?b then _ else _] => destruct b end;
    cbn [snd];
    try apply deaf_processFastTime;
    try (now apply deaf_processHeartbeat);
    try (now apply deaf_processLocomotiveAction);
    try reflexivity;
    unfold listener_view, processTrackPower, processHeartbeat,
      processProtocolVersion, processWebPort, processStealNeeded,
      processAddRemove; deaf H.
Qed.

Lemma deaf_processCommand (c : string) (len : Z) (w : WiThrottleProtocol) :
  delegate w = None ->
  listener_view (snd (processCommand c len w)) = listener_view w.
Proof using.
  intros Hd. unfold processCommand. cbv zeta.
  pose proof (deaf_strip_garbage (S (String.length c)) c false
                (log (println c) (log (print "<== ") w))) as H.
  destruct (strip_garbage _ _ _ _) as [[c' changed] w'].
  cbn [snd] in H.
  assert (Hd' : delegate w' = None)
    by (unfold listener_view in H; injection H as -> _; exact Hd).
  rewrite deaf_dispatch by (destruct changed; exact Hd').
  destruct changed; exact H.
Qed.

(** X15. The direction follows the server only through the delegate.
    With no delegate attached, no inbound line changes the direction
    [getDirection] returns (nor attaches a delegate).  With one attached, a
    direction line whose text after ["R"] has two or more characters is
    dropped: nothing is reported and the direction is kept. *)
Theorem inbound_direction_needs_delegate
  (w : WiThrottleProtocol) :
  (delegate w = None ->
   forall c len,
     delegate (snd (processCommand c len w)) = None
     /\ getDirection (snd (processCommand c len w)) = getDirection w)
  /\ (forall l pre rest,
      delegate w = Some l ->
      valid_address (currentAddress w) = true ->
      pre = "*" \/ pre = currentAddress w ->
      2 <= strlen rest ->
      let line := "MTA" ++ pre ++ PROPERTY_SEPARATOR ++ "R" ++ rest in
      delegate (snd (processCommand line (strlen line) w)) = Some l
      /\ getDirection (snd (processCommand line (strlen line) w)) = getDirection w).
Proof using.
  split.
  - intros Hd c len. pose proof (deaf_processCommand c len w Hd) as H.
    unfold listener_view in H. injection H as H1 H2.
    unfold getDirection. rewrite H1, H2. now split.
  - intros l pre rest Hd Ha Hpre Hr line. subst line.
    rewrite inbound_action; auto; [|discriminate|].
    + cbn [snd]. set (w1 := set_console _ w).
      change (locomotiveSwitch ("R" ++ rest) w1)
        with (processDirection (String "R" rest) w1).
      destruct (processDirection_ignored (String "R" rest) w1) as (D1 & D2).
      { right. rewrite strlen_cons. lia. }
      unfold getDirection. rewrite D1, D2. split; [exact Hd|reflexivity].
    + assert (Hl : 1 <= strlen pre).
      { apply strlen_nonempty. destruct Hpre as [-> | ->]; [discriminate|].
        now apply valid_address_nonempty. }
      unfold strlen in *. unfold PROPERTY_SEPARATOR. rewrite !string_length_app.
      cbn [String.length]. lia.
Qed.

(** *** Fields around the separator *)

Lemma indexOf_at_separator (a e : string) :
  forall i : Z,
  occurs "<" a = false ->
  WString.indexOf_at i PROPERTY_SEPARATOR (a ++ PROPERTY_SEPARATOR ++ e)
  = i + strlen a.
Proof using.
  induction a as [|x r IH]; intros i H.
  - change ("" ++ PROPERTY_SEPARATOR ++ e) with (PROPERTY_SEPARATOR ++ e).
    destruct e; cbn; unfold strlen; cbn; lia.
  - cbn in H. apply orb_false_iff in H. destruct H as [Hx Hr].
    cbn [append WString.indexOf_at].
    assert (E : String.prefix PROPERTY_SEPARATOR
                  (String x (r ++ PROPERTY_SEPARATOR ++ e)) = false).
    { change (String.prefix PROPERTY_SEPARATOR (String x (r ++ PROPERTY_SEPARATOR ++ e)))
        with (if ascii_dec "<" x
              then String.prefix ";>" (r ++ PROPERTY_SEPARATOR ++ e) else false).
      destruct (ascii_dec "<" x) as [<-|]; [discriminate|reflexivity]. }
    rewrite E, IH by exact Hr. rewrite strlen_cons. lia.
Qed.

Lemma take_app (a x : string) : take (String.length a) (a ++ x) = a.
Proof using. induction a as [|c r IH]; cbn; [now destruct x|now rewrite IH]. Qed.

Lemma advance_past_separator (a e : string) :
  (a ++ PROPERTY_SEPARATOR ++ e) +> (String.length a + 3) = e.
Proof using.
  rewrite <- append_assoc.
  replace (String.length a + 3)%nat with (String.length (a ++ PROPERTY_SEPARATOR))
    by (rewrite string_length_app; reflexivity).
  apply advance_app.
Qed.

(** X16. A steal notice is split at the first separator: the line
    ["MTS" ++ address ++ "<;>" ++ entry], with a non-empty address free of
    ["<"], hands the delegate that address and that entry, untrimmed.  When
    the separator comes first (an empty address) the delegate receives
    nothing. *)
Theorem steal_notice_split_at_separator
  (address entry : string) (w : WiThrottleProtocol) (l : list DelegateCall) :
  delegate w = Some l ->
  occurs "<" address = false ->
  (address <> "" ->
   let line := "MTS" ++ address ++ PROPERTY_SEPARATOR ++ entry in
   delegate (snd (processCommand line (strlen line) w))
   = Some (l ++ [addressStealNeeded address entry])%list)
  /\ (entry <> "" ->
      let line := "MTS" ++ PROPERTY_SEPARATOR ++ entry in
      delegate (snd (processCommand line (strlen line) w)) = Some l).
Proof using.
  intros Hd Hlt. split.
  - intros Hne line. subst line.
    clean_line w.
    set (w1 := set_console _ w).
    assert (Hd1 : delegate w1 = Some l) by exact Hd.
    pose proof (strlen_nonempty address Hne) as Hl.
    rewrite dispatch_steal.
    2:{ unfold strlen in *. unfold PROPERTY_SEPARATOR. rewrite !string_length_app.
        cbn [String.length]. lia. }
    cbn [snd]. unfold processStealNeeded.
    rewrite (has_delegate_attached w1 l Hd1). cbn [negb]. cbv zeta.
    unfold WString.indexOf. rewrite indexOf_at_separator by exact Hlt.
    replace (0 + strlen address >? 0) with true by (symmetry; apply Z.gtb_lt; lia).
    unfold WString.substring, WString.substring_from, strlen.
    replace (Z.to_nat (0 + Z.of_nat (String.length address)))
      with (String.length address) by lia.
    replace (Z.to_nat (0 + Z.of_nat (String.length address) + 3))
      with (String.length address + 3)%nat by lia.
    rewrite Nat.min_0_l, Nat.max_0_l, Nat.sub_0_r.
    cbn [advance]. rewrite take_app, advance_past_separator.
    now apply delegate_call.
  - intros Hne line. subst line.
    clean_line w.
    set (w1 := set_console _ w).
    assert (Hd1 : delegate w1 = Some l) by exact Hd.
    pose proof (strlen_nonempty entry Hne) as Hl.
    rewrite dispatch_steal.
    2:{ unfold strlen in *. unfold PROPERTY_SEPARATOR. rewrite !string_length_app.
        cbn [String.length]. lia. }
    cbn [snd]. unfold processStealNeeded.
    rewrite (has_delegate_attached w1 l Hd1). cbn [negb]. cbv zeta.
    unfold WString.indexOf.
    pose proof (indexOf_at_separator "" entry 0 eq_refl) as E.
    change ("" ++ PROPERTY_SEPARATOR ++ entry) with (PROPERTY_SEPARATOR ++ entry) in E.
    rewrite E. change (0 + strlen "" >? 0) with false. cbv iota.
    cbn [delegate]. exact Hd1.
Qed.


Lemma checkFastTime_idle (now : Z) (w : WiThrottleProtocol) :
  Chrono.elapsed (fastTimeTimer w) now < 1 -> checkFastTime now w = (true, w).
Proof using.
  intros H. unfold checkFastTime.
  destruct (Chrono.hasPassed _ _ _) eqn:E; [|reflexivity].
  apply hasPassed_one in E. lia.
Qed.

Lemma checkFastTime_due (now : Z) (w : WiThrottleProtocol) :
  1 <= Chrono.elapsed (fastTimeTimer w) now ->
  checkFastTime now w
  = (true,
     if PrimFloat.eqb (currentFastTimeRate w) (of_int 0)
     then set_clockChanged false (set_fastTimeTimer (Chrono.restart now) w)
     else set_clockChanged true
            (set_currentFastTime
               (PrimFloat.add (currentFastTime w) (currentFastTimeRate w))
               (set_fastTimeTimer (Chrono.restart now) w))).
Proof using.
  intros H. unfold checkFastTime. apply hasPassed_one in H. rewrite H.
  cbv zeta. cbn [currentFastTimeRate currentFastTime set_fastTimeTimer].
  now destruct (PrimFloat.eqb _ _).
Qed.

(** X18. The fast clock advances by one rate per firing, not by the time
    that has passed: when at least one second has elapsed and the rate is
    not zero, a poll of the timer adds the rate once, raises [clockChanged]
    and restarts the timer, and an immediate second poll adds nothing; at
    rate zero, or before a second has elapsed, the fast time keeps its
    value. *)
Theorem fast_clock_adds_rate_once
  (now : Z) (w : WiThrottleProtocol) :
  let w' := snd (checkFastTime now w) in
  (Chrono.elapsed (fastTimeTimer w) now < 1 -> w' = w)
  /\ (1 <= Chrono.elapsed (fastTimeTimer w) now ->
      PrimFloat.eqb (fastTimeRate w) (of_int 0) = true ->
      currentFastTime w' = currentFastTime w
      /\ clockChanged w' = false
      /\ fastTimeTimer w' = Chrono.restart now)
  /\ (1 <= Chrono.elapsed (fastTimeTimer w) now ->
      PrimFloat.eqb (fastTimeRate w) (of_int 0) = false ->
      currentFastTime w' = PrimFloat.add (currentFastTime w) (fastTimeRate w)
      /\ clockChanged w' = true
      /\ fastTimeTimer w' = Chrono.restart now
      /\ snd (checkFastTime now w') = w').
Proof using.
  intros w'. subst w'. unfold fastTimeRate. split; [|split].
  - intros H. now rewrite checkFastTime_idle.
  - intros H Hr. rewrite checkFastTime_due by exact H. rewrite Hr.
    repeat split.
  - intros H Hr. rewrite checkFastTime_due by exact H. rewrite Hr. cbn [snd].
    split; [reflexivity|]. split; [reflexivity|]. split; [reflexivity|].
    rewrite checkFastTime_idle; [reflexivity|].
    unfold Chrono.elapsed.
    cbn [fastTimeTimer set_clockChanged set_currentFastTime set_fastTimeTimer
           Chrono.restart Chrono.startTime]. lia.
Qed.

(** X19. The three plain notices reach the delegate through the
    dispatcher with the text after the prefix: ["VN" ++ x] reports the
    version text [x] as it is, ["PW" ++ x] the integer read from [x], and
    ["PPA" ++ x] the track power named by the first character of [x] alone
    - ["0"] off, ["1"] on, anything else unknown. *)
Theorem plain_notices_reach_delegate
  (x : string) (w : WiThrottleProtocol) (l : list DelegateCall) :
  delegate w = Some l ->
  x <> "" ->
  delegate (snd (processCommand ("VN" ++ x) (strlen ("VN" ++ x)) w))
  = Some (l ++ [receivedVersion x])%list
  /\ delegate (snd (processCommand ("PW" ++ x) (strlen ("PW" ++ x)) w))
     = Some (l ++ [receivedWebPort (WString.toInt x)])%list
  /\ delegate (snd (processCommand ("PPA" ++ x) (strlen ("PPA" ++ x)) w))
     = Some (l ++ [receivedTrackPower
                     (if Ascii.eqb (ch x 0) "0" then PowerOff
                      else if Ascii.eqb (ch x 0) "1" then PowerOn
                      else PowerUnknown)])%list.
Proof using.
  intros Hd Hx. pose proof (strlen_nonempty x Hx) as Hl.
  assert (L2 : forall p q, strlen (String p (String q x)) = 2 + strlen x)
    by (intros; rewrite !strlen_cons; lia).
  assert (L3 : forall p q r, strlen (String p (String q (String r x))) = 3 + strlen x)
    by (intros; rewrite !strlen_cons; lia).
  split; [|split].
  - clean_line w.
    set (w1 := set_console _ w).
    assert (Hd1 : delegate w1 = Some l) by exact Hd.
    change ("VN" ++ x) with (String "V" (String "N" x)) at 2. rewrite L2.
    rewrite dispatch_version by lia. cbn [snd].
    unfold processProtocolVersion. rewrite (has_delegate_attached w1 l Hd1).
    replace (2 + strlen x - 2 >? 0) with true by (symmetry; apply Z.gtb_lt; lia).
    now apply delegate_call.
  - clean_line w.
    set (w1 := set_console _ w).
    assert (Hd1 : delegate w1 = Some l) by exact Hd.
    change ("PW" ++ x) with (String "P" (String "W" x)) at 2. rewrite L2.
    rewrite dispatch_web_port by lia. cbn [snd].
    unfold processWebPort. rewrite (has_delegate_attached w1 l Hd1).
    replace (2 + strlen x - 2 >? 0) with true by (symmetry; apply Z.gtb_lt; lia).
    now apply delegate_call.
  - clean_line w.
    set (w1 := set_console _ w).
    assert (Hd1 : delegate w1 = Some l) by exact Hd.
    change ("PPA" ++ x) with (String "P" (String "P" (String "A" x))) at 2. rewrite L3.
    rewrite dispatch_track_power by lia. cbn [snd].
    unfold processTrackPower. rewrite (has_delegate_attached w1 l Hd1).
    replace (3 + strlen x - 3 >? 0) with true by (symmetry; apply Z.gtb_lt; lia).
    now apply delegate_call.
Qed.

(** *** The fast-time line *)

Lemma dispatch_fast_time (x : string) (len : Z) (w : WiThrottleProtocol) :
  3 < len ->
  dispatch ("PFT" ++ x) len w = processFastTime x (len - 3) w.
Proof using.
  intros H. unfold dispatch.
  replace (len >? 3) with true by (symmetry; apply Z.gtb_lt; lia).
  reflexivity.
Qed.

Lemma indexOf_at_absent (s : string) :
  forall i : Z,
  occurs "<" s = false -> WString.indexOf_at i PROPERTY_SEPARATOR s = -1.
Proof using.
  induction s as [|x r IH]; intros i H; [reflexivity|].
  cbn in H. apply orb_false_iff in H. destruct H as [Hx Hr].
  cbn [WString.indexOf_at].
  assert (E : String.prefix PROPERTY_SEPARATOR (String x r) = false).
  { change (String.prefix PROPERTY_SEPARATOR (String x r))
      with (if ascii_dec "<" x then String.prefix ";>" r else false).
    destruct (ascii_dec "<" x) as [<-|]; [discriminate|reflexivity]. }
  rewrite E. now apply IH.
Qed.

Lemma setCurrentFastTime_fields (s : string) (w : WiThrottleProtocol) :
  currentFastTime (setCurrentFastTime s w) = of_int (WString.toInt s)
  /\ currentFastTimeRate (setCurrentFastTime s w) = currentFastTimeRate w
  /\ clockChanged (setCurrentFastTime s w) = clockChanged w
  /\ delegate (setCurrentFastTime s w) = delegate w.
Proof using.
  unfold setCurrentFastTime. cbv zeta. destruct (PrimFloat.eqb _ _); repeat split.
Qed.

(** X20. A fast-time line sets the fast time to the integer read from its
    time field and always counts as a change.  With a rate after the
    separator the rate is replaced and [clockChanged] is raised; without a
    separator the rate is kept and [clockChanged] is left as it was.  The
    delegate is not called in either case. *)
Theorem fast_time_line_sets_clock
  (time rate : string) (w : WiThrottleProtocol) :
  time <> "" ->
  occurs "<" time = false ->
  (let r := processCommand ("PFT" ++ time ++ PROPERTY_SEPARATOR ++ rate)
              (strlen ("PFT" ++ time ++ PROPERTY_SEPARATOR ++ rate)) w in
   fst r = true
   /\ currentFastTime (snd r) = of_int (WString.toInt time)
   /\ fastTimeRate (snd r) = toFloat rate
   /\ clockChanged (snd r) = true
   /\ delegate (snd r) = delegate w)
  /\ (let r := processCommand ("PFT" ++ time) (strlen ("PFT" ++ time)) w in
      fst r = true
      /\ currentFastTime (snd r) = of_int (WString.toInt time)
      /\ fastTimeRate (snd r) = fastTimeRate w
      /\ clockChanged (snd r) = clockChanged w
      /\ delegate (snd r) = delegate w).
Proof using.
  intros Hne Hlt. pose proof (strlen_nonempty time Hne) as Hl. split.
  - intros r. subst r.
    clean_line w.
    set (w1 := set_console _ w).
    rewrite dispatch_fast_time.
    2:{ unfold strlen in *. unfold PROPERTY_SEPARATOR. rewrite !string_length_app.
        cbn [String.length]. lia. }
    unfold processFastTime. cbv zeta.
    unfold WString.indexOf. rewrite indexOf_at_separator by exact Hlt.
    replace (0 + strlen time >? 0) with true by (symmetry; apply Z.gtb_lt; lia).
    unfold WString.substring, WString.substring_from, strlen.
    replace (Z.to_nat (0 + Z.of_nat (String.length time)))
      with (String.length time) by lia.
    replace (Z.to_nat (0 + Z.of_nat (String.length time) + 3))
      with (String.length time + 3)%nat by lia.
    rewrite Nat.min_0_l, Nat.max_0_l, Nat.sub_0_r.
    cbn [advance]. rewrite take_app, advance_past_separator.
    destruct (setCurrentFastTime_fields time w1) as (F1 & _ & _ & F4).
    unfold fastTimeRate, log.
    cbn [fst snd currentFastTime currentFastTimeRate clockChanged delegate
           set_clockChanged set_console set_currentFastTimeRate].
    repeat split; assumption.
  - intros r. subst r.
    clean_line w.
    set (w1 := set_console _ w).
    rewrite dispatch_fast_time.
    2:{ unfold strlen in *. rewrite !string_length_app.
        cbn [String.length]. lia. }
    unfold processFastTime. cbv zeta.
    unfold WString.indexOf. rewrite indexOf_at_absent by exact Hlt.
    cbn [Z.gtb Z.compare fst snd].
    destruct (setCurrentFastTime_fields time w1) as (F1 & F2 & F3 & F4).
    unfold fastTimeRate. repeat split; assumption.
Qed.
End Engine.

(** ** The statements at concrete inputs *)

(** A poll at second 0 of a just connected engine, nothing to read. *)
Lemma check_idle_poll_returns_true_witness :
  exists w',
    check false zero_rate 0 [] fresh_engine = Some (true, w')
    /\ stream w' = Some []
    /\ delegate w' = delegate fresh_engine
    /\ currentFastTime w' = currentFastTime fresh_engine
    /\ clockChanged w' = false
    /\ heartbeatChanged w' = false.
Proof.
  apply (check_idle_poll_returns_true false zero_rate 0 fresh_engine []).
  - reflexivity.
  - reflexivity.
  - left. vm_compute. reflexivity.
Defined.

(** The body of ["MT-S123<;>r\n"]: the entry parsed is ["r\n"], and the
    delegate receives nothing. *)
Lemma removal_entry_always_rejected_witness :
  WString.substring_from 8 (eol "-S123<;>r") = eol "r"
  /\ delegate (processAddRemove (eol "-S123<;>r") 10 fresh_engine) = Some [].
Proof.
  split; [reflexivity|].
  assert (H1 : delegate fresh_engine = Some []) by reflexivity.
  assert (H2 : ch (eol "-S123<;>r") 0 = "-"%char) by reflexivity.
  assert (H3 : 0 < WString.indexOf PROPERTY_SEPARATOR (eol "-S123<;>r"))
    by (vm_compute; reflexivity).
  exact (proj2 (removal_entry_always_rejected (eol "-S123<;>r") 10 fresh_engine []
                  H1 H2 H3)).
Defined.


(** Reference point 0.  Period 10: nothing at second 4, one ["*"] at
    second 5.  Period 5: nothing at second 1, one ["*"] at second 2. *)
Lemma heartbeat_sent_at_truncated_half_period_witness :
  checkHeartbeat 4 heartbeat_engine = (false, heartbeat_engine)
  /\ fst (checkHeartbeat 5 heartbeat_engine) = true
  /\ stream (snd (checkHeartbeat 5 heartbeat_engine)) = Some ["*"]
  /\ checkHeartbeat 5 (snd (checkHeartbeat 5 heartbeat_engine))
     = (false, snd (checkHeartbeat 5 heartbeat_engine))
  /\ checkHeartbeat 1 odd_heartbeat_engine = (false, odd_heartbeat_engine)
  /\ fst (checkHeartbeat 2 odd_heartbeat_engine) = true
  /\ stream (snd (checkHeartbeat 2 odd_heartbeat_engine)) = Some ["*"]
  /\ fst (checkHeartbeat 0 (snd (checkHeartbeat 0 shortest_heartbeat_engine))) = true.
Proof.
  destruct (heartbeat_sent_at_truncated_half_period 4 heartbeat_engine)
    as (_ & Hearly & _).
  destruct (heartbeat_sent_at_truncated_half_period 5 heartbeat_engine)
    as (_ & _ & Hdue).
  destruct (heartbeat_sent_at_truncated_half_period 1 odd_heartbeat_engine)
    as (_ & Hearly' & _).
  destruct (heartbeat_sent_at_truncated_half_period 2 odd_heartbeat_engine)
    as (_ & _ & Hdue').
  destruct (heartbeat_sent_at_truncated_half_period 0 shortest_heartbeat_engine)
    as (_ & _ & Hone).
  assert (Hp : 0 < heartbeatPeriod heartbeat_engine) by (vm_compute; reflexivity).
  assert (H4 : Chrono.elapsed (heartbeatTimer heartbeat_engine) 4
               < heartbeatPeriod heartbeat_engine / 2) by (vm_compute; reflexivity).
  assert (H5 : heartbeatPeriod heartbeat_engine / 2
               <= Chrono.elapsed (heartbeatTimer heartbeat_engine) 5)
    by (vm_compute; discriminate).
  assert (Hp' : 0 < heartbeatPeriod odd_heartbeat_engine) by (vm_compute; reflexivity).
  assert (H1 : Chrono.elapsed (heartbeatTimer odd_heartbeat_engine) 1
               < heartbeatPeriod odd_heartbeat_engine / 2) by (vm_compute; reflexivity).
  assert (H2 : heartbeatPeriod odd_heartbeat_engine / 2
               <= Chrono.elapsed (heartbeatTimer odd_heartbeat_engine) 2)
    by (vm_compute; discriminate).
  assert (Hp1 : 0 < heartbeatPeriod shortest_heartbeat_engine)
    by (vm_compute; reflexivity).
  assert (H0 : heartbeatPeriod shortest_heartbeat_engine / 2
               <= Chrono.elapsed (heartbeatTimer shortest_heartbeat_engine) 0)
    by (vm_compute; discriminate).
  destruct (Hdue Hp H5 [] eq_refl) as (Hfst & Hout & _ & _ & Hagain & _).
  destruct (Hdue' Hp' H2 [] eq_refl) as (Hfst' & Hout' & _).
  destruct (Hone Hp1 H0 [] eq_refl) as (_ & _ & _ & _ & _ & Hevery).
  assert (H10 : 2 <= heartbeatPeriod heartbeat_engine) by (vm_compute; discriminate).
  split; [exact (Hearly Hp H4)|]. split; [exact Hfst|]. split; [exact Hout|].
  split; [exact (Hagain H10)|]. split; [exact (Hearly' Hp' H1)|].
  split; [exact Hfst'|]. split; [exact Hout'|]. exact (Hevery eq_refl).
Defined.

Lemma setSpeed_accepts_exactly_valid_requests_witness :
  setSpeed 127 selected_engine = (false, selected_engine)
  /\ setSpeed (-1) selected_engine = (false, selected_engine)
  /\ setSpeed 50 fresh_engine = (false, fresh_engine)
  /\ fst (setSpeed 126 selected_engine) = true
  /\ currentSpeed (snd (setSpeed 126 selected_engine)) = 126.
Proof.
  destruct (setSpeed_accepts_exactly_valid_requests 127 selected_engine) as [Hhi _].
  destruct (setSpeed_accepts_exactly_valid_requests (-1) selected_engine) as [Hlo _].
  destruct (setSpeed_accepts_exactly_valid_requests 50 fresh_engine) as [Hno _].
  destruct (setSpeed_accepts_exactly_valid_requests 126 selected_engine) as [_ Hok].
  split; [apply Hhi; right; left; lia|].
  split; [apply Hlo; left; lia|].
  split; [apply Hno; right; right; reflexivity|].
  apply Hok; [lia|reflexivity].
Defined.

(** The line ["MTA*<;>V200"] with ["S123"] selected. *)
Lemma inbound_speed_clamped_to_zero_witness :
  delegate (snd (processCommand false zero_rate "MTA*<;>V200" 11 selected_engine))
  = Some [receivedSpeed 0].
Proof.
  assert (H1 : delegate selected_engine = Some []) by reflexivity.
  assert (H2 : Ascii.eqb (ch (currentAddress selected_engine) 0) "S"
               || Ascii.eqb (ch (currentAddress selected_engine) 0) "L" = true)
    by reflexivity.
  assert (H3 : "200" <> "") by discriminate.
  exact (inbound_speed_clamped_to_zero false zero_rate "*" "200" selected_engine []
           H1 H2 (or_introl eq_refl) H3).
Defined.

Lemma addLocomotive_selects_iff_prefix_valid_witness :
  fst (addLocomotive "S123" fresh_engine) = true
  /\ stream (snd (addLocomotive "S123" fresh_engine)) = Some ["MT+S123<;>S123"]
  /\ currentAddress (snd (addLocomotive "S123" fresh_engine)) = "S123"
  /\ locomotiveSelected (snd (addLocomotive "S123" fresh_engine)) = true
  /\ addLocomotive "X123" fresh_engine = (false, fresh_engine).
Proof.
  destruct (addLocomotive_selects_iff_prefix_valid "S123" fresh_engine [] eq_refl)
    as (Hiff & Hsel & _).
  destruct (addLocomotive_selects_iff_prefix_valid "X123" fresh_engine [] eq_refl)
    as (_ & _ & Hrej).
  destruct (Hsel eq_refl) as (Hout & Haddr & Hflag).
  split; [apply Hiff; reflexivity|].
  split; [exact Hout|]. split; [exact Haddr|]. split; [exact Hflag|].
  apply Hrej. reflexivity.
Defined.

Lemma fresh_engine_framer_ok : framer_ok fresh_engine.
Proof.
  split; [change (0 <= 0 <= 1022); lia | change (1024 <= 1024)%nat; lia].
Defined.

(** On a just connected engine: any bytes are framed within bounds; 1023
    bytes ["x"] are dropped; and after them and a newline, the line
    ["VN2.0"] is dispatched as such. *)
Lemma framer_bounded_and_recovers_witness :
  (exists changed' w',
      drain false zero_rate (list_ascii_of_string (eol "VN2.0")) false fresh_engine
      = Some (changed', w') /\ framer_ok w')
  /\ drain false zero_rate (repeat "x"%char 1023) false fresh_engine
     = Some (false,
             set_nextChar 0
               (log (println (c_str (repeat "x"%char 1023)))
                  (log (print "ERROR LINE TOO LONG: ")
                     (set_inputbuffer
                        (blit 0 (repeat "x"%char 1023 ++ [NUL])
                           (inputbuffer fresh_engine)) fresh_engine))))
  /\ (exists changed1 w1,
      drain false zero_rate (repeat "x"%char 1023 ++ [NEWLINE]) false fresh_engine
      = Some (changed1, w1)
      /\ drain false zero_rate
           (repeat "x"%char 1023 ++ NEWLINE :: list_ascii_of_string "VN2.0" ++ [NEWLINE])
           false fresh_engine
         = line_dispatched false zero_rate (list_ascii_of_string "VN2.0") changed1 w1).
Proof.
  destruct (framer_bounded_and_recovers false zero_rate false fresh_engine
              fresh_engine_framer_ok) as (Hsafe & Hover & Hnext).
  split; [exact (Hsafe (list_ascii_of_string (eol "VN2.0")))|]. split.
  - apply (Hover eq_refl (repeat "x"%char 1023)).
    + apply repeat_length.
    + apply Forall_forall. intros b Hb. apply repeat_spec in Hb. subst b.
      reflexivity.
  - destruct (Hnext (repeat "x"%char 1023) NEWLINE (list_ascii_of_string "VN2.0") NEWLINE)
      as (c1 & w1 & E & _ & F).
    + reflexivity.
    + reflexivity.
    + discriminate.
    + cbn. lia.
    + repeat constructor.
    + exists c1, w1. split; [exact E|exact F].
Defined.

(** With ["S123"] selected, the remainder ["L41<;>V5"] of a line for another
    locomotive begins with neither prefix and with no action letter. *)
Lemma locomotive_action_prefix_optional_witness :
  processLocomotiveAction "S123<;>V5" 9 selected_engine
  = (true, locomotiveSwitch "V5" selected_engine)
  /\ delegate (snd (processLocomotiveAction "L41<;>V5" 8 selected_engine))
     = delegate selected_engine.
Proof.
  assert (Ha : currentAddress selected_engine <> "") by discriminate.
  destruct (locomotive_action_prefix_optional "S123<;>V5" 9 selected_engine Ha)
    as (Hstrip & _).
  destruct (locomotive_action_prefix_optional "L41<;>V5" 8 selected_engine Ha)
    as (_ & Hnone).
  split.
  - apply Hstrip. discriminate.
  - destruct (Hnone eq_refl eq_refl) as (_ & Hquiet).
    exact (proj1 (Hquiet eq_refl)).
Defined.

Lemma setSpeed_writes_once_per_new_value_witness :
  setSpeed 5 (snd (setSpeed 5 selected_engine))
  = (true, snd (setSpeed 5 selected_engine))
  /\ stream (snd (setSpeed 5 selected_engine))
     = Some ["MT+S123<;>S123"; "MTA*<;>V5"].
Proof.
  assert (H : setSpeed 5 selected_engine = (true, snd (setSpeed 5 selected_engine)))
    by reflexivity.
  destruct (setSpeed_writes_once_per_new_value 5 selected_engine _ H)
    as (Hagain & Hone & _).
  split; [exact Hagain|].
  apply (Hone ["MT+S123<;>S123"]); [reflexivity|]. discriminate.
Defined.

Lemma dispatch_length_ignores_stripping_witness :
  processCommand false zero_rate "AT+CIPSENDBUF=AT+CIPSENDBUF=PPA1" 32 fresh_engine
  = dispatch false zero_rate "PPA1" 32
      (set_console (stripped_console 2 "PPA1" fresh_engine) fresh_engine)
  /\ delegate (snd (processCommand false zero_rate "AT+CIPSENDBUF=PPA" 17 fresh_engine))
     = Some [receivedTrackPower PowerUnknown]
  /\ delegate (snd (processCommand false zero_rate "PPA" 3 fresh_engine)) = Some [].
Proof.
  exact (dispatch_length_ignores_stripping false zero_rate 2 "PPA1" 32 fresh_engine []
           eq_refl eq_refl).
Defined.

(** ** The further properties at concrete inputs *)

Lemma speed_command_read_back_witness :
  exists cmd,
    stream (snd (setSpeed 5 selected_engine))
    = Some (["MT+S123<;>S123"] ++ sent (server selected_engine) cmd)%list
    /\ delegate (snd (processCommand false zero_rate cmd (strlen cmd) peer_engine))
       = Some ([] ++ [receivedSpeed 5])%list.
Proof.
  assert (Hv : 0 <= 5 <= 126) by lia.
  assert (Hn : 5 <> currentSpeed selected_engine) by discriminate.
  exact (speed_command_read_back false zero_rate 5 selected_engine peer_engine
           ["MT+S123<;>S123"] [] eq_refl eq_refl Hv Hn eq_refl eq_refl).
Defined.


Lemma function_command_read_back_witness :
  exists cmd,
    stream (setFunction 28 true selected_engine)
    = Some (["MT+S123<;>S123"] ++ sent (server selected_engine) cmd)%list
    /\ delegate (snd (processCommand false zero_rate cmd (strlen cmd) peer_engine))
       = Some ([] ++ [receivedFunctionState 28 true])%list.
Proof.
  assert (Hf : 0 <= 28 <= 28) by lia.
  exact (function_command_read_back false zero_rate 28 true selected_engine peer_engine
           ["MT+S123<;>S123"] [] eq_refl eq_refl Hf eq_refl eq_refl eq_refl).
Defined.

Lemma emergency_stop_keeps_cached_speed_witness :
  stream (emergencyStop selected_engine) = Some ["MT+S123<;>S123"; "MTA*<;>X"]
  /\ setSpeed 0 (emergencyStop selected_engine) = (true, emergencyStop selected_engine).
Proof.
  destruct (emergency_stop_keeps_cached_speed selected_engine ["MT+S123<;>S123"] eq_refl)
    as (Hout & _ & Hswallowed).
  split; [exact Hout|].
  apply Hswallowed; [reflexivity|].
  change (0 <= 0 <= 126). lia.
Defined.


Lemma steal_releases_before_selecting_witness :
  stream (snd (stealLocomotive "L7" fresh_engine))
  = Some ["MT-L7<;>r"; "MT+L7<;>L7"]
  /\ fst (stealLocomotive "X7" selected_engine) = false
  /\ stream (snd (stealLocomotive "X7" selected_engine))
     = Some ["MT+S123<;>S123"; "MT-X7<;>r"]
  /\ locomotiveSelected (snd (stealLocomotive "X7" selected_engine)) = false.
Proof.
  destruct (steal_releases_before_selecting "L7" fresh_engine [] eq_refl) as (Hok & _).
  destruct (steal_releases_before_selecting "X7" selected_engine ["MT+S123<;>S123"]
              eq_refl) as (_ & Hbad).
  destruct (Hok eq_refl) as (_ & Hout & _ & _).
  destruct (Hbad eq_refl) as (Hf & Hout' & _ & Hsel).
  split; [exact Hout|]. split; [exact Hf|]. split; [exact Hout'|exact Hsel].
Defined.

Lemma reconnect_keeps_cached_speed_witness :
  currentSpeed (connect (snd (setSpeed 40 selected_engine))) = 40
  /\ stream (snd (addLocomotive "S123" (connect (snd (setSpeed 40 selected_engine)))))
     = Some ["MT+S123<;>S123"]
  /\ setSpeed 40 (snd (addLocomotive "S123" (connect (snd (setSpeed 40 selected_engine)))))
     = (true, snd (addLocomotive "S123" (connect (snd (setSpeed 40 selected_engine))))).
Proof.
  assert (Hr : 0 <= currentSpeed (snd (setSpeed 40 selected_engine)) <= 126)
    by (change (0 <= 40 <= 126); lia).
  destruct (reconnect_keeps_cached_speed "S123" (snd (setSpeed 40 selected_engine))
              eq_refl Hr) as (_ & (_ & _ & Hspeed) & Hout & Hswallowed).
  split; [exact Hspeed|]. split; [exact Hout|exact Hswallowed].
Defined.

Lemma detached_engine_reads_and_writes_nothing_witness :
  check false zero_rate 7 (println_bytes "VN2.0") (disconnect selected_engine)
  = Some (false, resetChangeFlags (disconnect selected_engine))
  /\ fst (addLocomotive "L7" (disconnect selected_engine)) = true
  /\ stream (snd (addLocomotive "L7" (disconnect selected_engine))) = None.
Proof.
  destruct (detached_engine_reads_and_writes_nothing false zero_rate 7
              (println_bytes "VN2.0") (disconnect selected_engine) eq_refl)
    as (Hpoll & _ & Hadd).
  destruct (Hadd "L7" eq_refl) as (Hok & Hnone & _).
  split; [exact Hpoll|]. split; [exact Hok|exact Hnone].
Defined.

Lemma repeated_terminator_ignored_witness :
  drain false zero_rate (list_ascii_of_string "VN2.0" ++ [CR; NEWLINE]) false
    fresh_engine
  = drain false zero_rate (list_ascii_of_string "VN2.0" ++ [CR]) false fresh_engine.
Proof.
  exact (repeated_terminator_ignored false zero_rate (list_ascii_of_string "VN2.0")
           CR NEWLINE false fresh_engine eq_refl eq_refl).
Defined.

Lemma println_line_dispatched_once_witness :
  check false zero_rate 0 (println_bytes "MTA*<;>V30") selected_engine
  = (let (r, w3) :=
       processCommand false zero_rate "MTA*<;>V30" (strlen "MTA*<;>V30")
         (line_framed (list_ascii_of_string "MTA*<;>V30")
            (snd (checkHeartbeat 0
                    (snd (checkFastTime 0 (resetChangeFlags selected_engine)))))) in
     Some (true, set_nextChar 0 w3)).
Proof.
  assert (Hok : framer_ok selected_engine)
    by (split; [change (0 <= 0 <= 1022); lia | change (1024 <= 1024)%nat; lia]).
  assert (Hne : "MTA*<;>V30" <> "") by discriminate.
  assert (Hlen : strlen "MTA*<;>V30" < 1023) by (change (11 < 1023); lia).
  exact (println_line_dispatched_once false zero_rate 0 "MTA*<;>V30" selected_engine
           ["MT+S123<;>S123"] eq_refl Hok eq_refl Hne Hlen eq_refl eq_refl eq_refl).
Defined.


Lemma inbound_speed_steps_filtered_witness :
  delegate (snd (processCommand false zero_rate "MTA*<;>s4" 9 selected_engine))
  = Some ([] ++ [receivedSpeedSteps 4])%list
  /\ delegate (snd (processCommand false zero_rate "MTA*<;>s3" 9 selected_engine))
     = Some [].
Proof.
  assert (H4 : "4" <> "") by discriminate.
  assert (H3 : "3" <> "") by discriminate.
  split.
  - exact (inbound_speed_steps_filtered false zero_rate "*" "4" selected_engine []
             eq_refl eq_refl (or_introl eq_refl) H4).
  - exact (inbound_speed_steps_filtered false zero_rate "*" "3" selected_engine []
             eq_refl eq_refl (or_introl eq_refl) H3).
Defined.

Lemma inbound_function_state_witness :
  delegate (snd (processCommand false zero_rate "MTA*<;>F128" 11 selected_engine))
  = Some ([] ++ [receivedFunctionState 28 true])%list
  /\ delegate (snd (processCommand false zero_rate "MTA*<;>F000" 11 selected_engine))
     = Some []
  /\ delegate (snd (processCommand false zero_rate "MTA*<;>F0257" 12 selected_engine))
     = Some ([] ++ [receivedFunctionState 1 false])%list.
Proof.
  assert (H1 : "28" <> "") by discriminate.
  assert (H2 : "00" <> "") by discriminate.
  assert (H3 : "257" <> "") by discriminate.
  split; [|split].
  - exact (inbound_function_state false zero_rate "*" "28" "1" selected_engine []
             eq_refl eq_refl (or_introl eq_refl) H1).
  - exact (inbound_function_state false zero_rate "*" "00" "0" selected_engine []
             eq_refl eq_refl (or_introl eq_refl) H2).
  - exact (inbound_function_state false zero_rate "*" "257" "0" selected_engine []
             eq_refl eq_refl (or_introl eq_refl) H3).
Defined.

Lemma inbound_direction_needs_delegate_witness :
  getDirection
    (snd (processCommand false zero_rate "MTA*<;>R0" 9
            (snd (addLocomotive "S123" (connect (create false 1024 0))))))
  = Forward
  /\ delegate (snd (processCommand false zero_rate "MTA*<;>R00" 10 selected_engine))
     = Some [].
Proof.
  destruct (inbound_direction_needs_delegate false zero_rate
              (snd (addLocomotive "S123" (connect (create false 1024 0)))))
    as (Hdeaf & _).
  destruct (inbound_direction_needs_delegate false zero_rate selected_engine)
    as (_ & Hlong).
  assert (Hr : 2 <= strlen "00") by (change (2 <= 2); lia).
  split.
  - exact (proj2 (Hdeaf eq_refl "MTA*<;>R0" 9)).
  - exact (proj1 (Hlong [] "*" "00" eq_refl eq_refl (or_introl eq_refl) Hr)).
Defined.

Lemma steal_notice_split_at_separator_witness :
  delegate (snd (processCommand false zero_rate "MTSL41<;> Big Boy" 17 fresh_engine))
  = Some ([] ++ [addressStealNeeded "L41" " Big Boy"])%list
  /\ delegate (snd (processCommand false zero_rate "MTS<;>L41" 9 fresh_engine))
     = Some [].
Proof.
  assert (Ha : "L41" <> "") by discriminate.
  destruct (steal_notice_split_at_separator false zero_rate "L41" " Big Boy"
              fresh_engine [] eq_refl eq_refl) as (Hsplit & _).
  destruct (steal_notice_split_at_separator false zero_rate "" "L41"
              fresh_engine [] eq_refl eq_refl) as (_ & Hempty).
  split; [exact (Hsplit Ha)|]. apply Hempty. discriminate.
Defined.


Lemma fast_clock_adds_rate_once_witness :
  snd (checkFastTime 0 fresh_engine) = fresh_engine
  /\ currentFastTime (snd (checkFastTime 60 fresh_engine)) = currentFastTime fresh_engine
  /\ fastTimeTimer (snd (checkFastTime 60 fresh_engine)) = Chrono.restart 60
  /\ currentFastTime (snd (checkFastTime 60 running_clock_engine))
     = PrimFloat.add (currentFastTime running_clock_engine)
         (fastTimeRate running_clock_engine).
Proof.
  destruct (fast_clock_adds_rate_once 0 fresh_engine) as (Hearly & _).
  destruct (fast_clock_adds_rate_once 60 fresh_engine) as (_ & Hpaused & _).
  destruct (fast_clock_adds_rate_once 60 running_clock_engine) as (_ & _ & Hrun).
  assert (E0 : Chrono.elapsed (fastTimeTimer fresh_engine) 0 < 1)
    by (change (0 < 1); lia).
  assert (E60 : 1 <= Chrono.elapsed (fastTimeTimer fresh_engine) 60)
    by (change (1 <= 60); lia).
  assert (R60 : 1 <= Chrono.elapsed (fastTimeTimer running_clock_engine) 60)
    by (change (1 <= 60); lia).
  assert (P0 : PrimFloat.eqb (fastTimeRate fresh_engine) (of_int 0) = true)
    by (vm_compute; reflexivity).
  assert (P4 : PrimFloat.eqb (fastTimeRate running_clock_engine) (of_int 0) = false)
    by (vm_compute; reflexivity).
  destruct (Hpaused E60 P0) as (Hkept & _ & Htimer).
  destruct (Hrun R60 P4) as (Hadd & _).
  split; [exact (Hearly E0)|]. split; [exact Hkept|]. split; [exact Htimer|exact Hadd].
Defined.

Lemma plain_notices_reach_delegate_witness :
  delegate (snd (processCommand false zero_rate "VN2.0" 5 fresh_engine))
  = Some ([] ++ [receivedVersion "2.0"])%list
  /\ delegate (snd (processCommand false zero_rate "PW12080" 7 fresh_engine))
     = Some ([] ++ [receivedWebPort 12080])%list
  /\ delegate (snd (processCommand false zero_rate "PPA15" 5 fresh_engine))
     = Some ([] ++ [receivedTrackPower PowerOn])%list.
Proof.
  assert (H1 : "2.0" <> "") by discriminate.
  assert (H2 : "12080" <> "") by discriminate.
  assert (H3 : "15" <> "") by discriminate.
  split; [|split].
  - exact (proj1 (plain_notices_reach_delegate false zero_rate "2.0" fresh_engine []
                    eq_refl H1)).
  - exact (proj1 (proj2 (plain_notices_reach_delegate false zero_rate "12080"
                           fresh_engine [] eq_refl H2))).
  - exact (proj2 (proj2 (plain_notices_reach_delegate false zero_rate "15"
                           fresh_engine [] eq_refl H3))).
Defined.

Lemma fast_time_line_sets_clock_witness :
  currentFastTime (snd (processCommand false zero_rate "PFT1550686525<;>2.0" 19
                          fresh_engine))
  = of_int 1550686525
  /\ clockChanged (snd (processCommand false zero_rate "PFT1550686525<;>2.0" 19
                          fresh_engine)) = true
  /\ clockChanged (snd (processCommand false zero_rate "PFT1550686525" 13 fresh_engine))
     = false.
Proof.
  assert (Hne : "1550686525" <> "") by discriminate.
  destruct (fast_time_line_sets_clock false zero_rate "1550686525" "2.0" fresh_engine
              Hne eq_refl) as ((_ & Htime & _ & Hflag & _) & (_ & _ & _ & Hkept & _)).
  split; [exact Htime|]. split; [exact Hflag|exact Hkept].
Defined.
